(** * Risk scoring rules of the year-end reconciliation pipeline

    Shallow embedding of [scoring_rules.py] (the four per-row scoring
    functions and the shared band classifier) and of the column
    assignments of [validator.py] that feed them. *)

From Stdlib Require Import ZArith QArith Qabs Lia Lqa String List.
From stdpp Require Import gmap strings list fin_maps.

Local Open Scope Z_scope.

(** ** Python values held by a row *)

(** A Python [float]: a finite value (every finite double is a rational;
    rounding is not modelled, the code only compares floats with the
    constants 0 and 5), or one of the three special values. *)
Inductive pyfloat : Type :=
  | Fin (q : Q)
  | PInf
  | NInf
  | NaN.

(** The built-in values a row (a [dict] or a pandas [Series]) maps its
    field names to.  A row taken from a frame with nullable columns can
    also hold [pd.NA]: such rows are the [cell] rows further down. *)
Inductive value : Type :=
  | VNone
  | VBool (b : bool)
  | VInt (z : Z)
  | VFloat (f : pyfloat)
  | VStr (s : string).

(** The exceptions the modelled code can raise. *)
Inductive exn : Type :=
  | TypeError
  | ValueError
  | OverflowError.

Inductive result (A : Type) : Type :=
  | Ok (a : A)
  | Raise (e : exn).
Arguments Ok {A} a.
Arguments Raise {A} e.

#[global] Instance result_ret : MRet result := fun A a => Ok a.
#[global] Instance result_bind : MBind result := fun A B k r =>
  match r with
  | Ok a => k a
  | Raise e => Raise e
  end.

(** [bool(v)]: Python truthiness of a built-in value. *)
Definition py_bool (v : value) : bool :=
  match v with
  | VNone => false
  | VBool b => b
  | VInt z => negb (z =? 0)
  | VFloat (Fin q) => negb (Qeq_bool q 0)
  | VFloat _ => true
  | VStr s => negb (String.eqb s "")
  end.

(** Integers at or beyond this magnitude round past the largest double:
    [float] raises [OverflowError] on them. *)
Definition float_int_limit : Z := 2 ^ 1024 - 2 ^ 970.

Section PyFloat.

(** [float] applied to a [str] follows CPython's numeric-literal grammar,
    which is not part of this repository: it is taken as a parameter
    ([None] when the text is not a number). *)
Variable str_to_float : string -> option pyfloat.

(** [float(v)]. *)
Definition py_float (v : value) : result pyfloat :=
  match v with
  | VNone => Raise TypeError
  | VBool b => Ok (Fin (if b then 1 else 0))
  | VInt z =>
      if Z.abs z <? float_int_limit then Ok (Fin (inject_Z z))
      else Raise OverflowError
  | VFloat f => Ok f
  | VStr s =>
      match str_to_float s with
      | Some f => Ok f
      | None => Raise ValueError
      end
  end.

End PyFloat.

(** A reading of text under which nothing is a number; it instantiates
    [str_to_float] on concrete rows, none of which holds a string in
    [tax_diff_abs]. *)
Definition no_numeric_text : string → option pyfloat := λ _, None.

Definition Qgt_bool (a b : Q) : bool := negb (Qle_bool a b).

(** [f > c] for a float [f] and a finite constant [c]; every comparison
    with NaN is false. *)
Definition float_gt (f : pyfloat) (c : Q) : bool :=
  match f with
  | Fin q => Qgt_bool q c
  | PInf => true
  | NInf => false
  | NaN => false
  end.

(** [sum(flags)] over a list of booleans: [True] counts 1. *)
Definition py_sum (flags : list bool) : Z :=
  fold_left (fun acc b => acc + Z.b2z b) flags 0.

(** A row maps field names to values; [row.get(key, dflt)]. *)
Definition row_get (row : gmap string value) (key : string) (dflt : value) : value :=
  default dflt (row !! key).

(** ** The shared band classifier *)

(** [classify_risk(score)], lines 8-16. *)
Definition classify_risk (score : Q) : string :=
  if Qle_bool score 20 then "Low (5–15%)"
  else if Qle_bool score 40 then "Medium (20–40%)"
  else if Qle_bool score 70 then "High (50–80%)"
  else "Critical (85–99%)".

(** The four values [classify_risk] can return, in band order. *)
Definition risk_levels : list string :=
  ["Low (5–15%)"; "Medium (20–40%)"; "High (50–80%)"; "Critical (85–99%)"].

(** ** Model A: AP *)

Module AP.

(** The flags as read at lines 33-37. *)
Record flags : Type := Flags {
  missing_in_GL : bool;
  amount_mismatch : bool;
  late_posting : bool;
  duplicate : bool;
  unusual_gl : bool
}.

Definition fields : list string :=
  ["missing_in_GL"; "amount_mismatch"; "late_posting";
   "duplicate_invoice_number"; "unusual_GL_account"].

Definition read (row : gmap string value) : flags :=
  {| missing_in_GL := py_bool (row_get row "missing_in_GL" (VBool false));
     amount_mismatch := py_bool (row_get row "amount_mismatch" (VBool false));
     late_posting := py_bool (row_get row "late_posting" (VBool false));
     duplicate := py_bool (row_get row "duplicate_invoice_number" (VBool false));
     unusual_gl := py_bool (row_get row "unusual_GL_account" (VBool false)) |}.

(** Lines 31 and 39-56: base, weights and the [missing_in_GL] bump. *)
Definition additive (f : flags) : Z :=
  let score := 5 in
  let score := if late_posting f then score + 10 else score in
  let score := if amount_mismatch f then score + 30 else score in
  let score := if unusual_gl f then score + 25 else score in
  let score := if duplicate f then score + 40 else score in
  let score :=
    if missing_in_GL f then
      let score := score + 60 in
      if amount_mismatch f || duplicate f || late_posting f || unusual_gl f
      then score + 20 else score
    else score in
  score.

(** Line 59. *)
Definition count (f : flags) : Z :=
  py_sum [missing_in_GL f; amount_mismatch f; late_posting f; duplicate f;
          unusual_gl f].

(** Lines 60-61. *)
Definition floored (f : flags) (score : Z) : Z :=
  if count f >=? 3 then Z.max score 90 else score.

(** Lines 31-64 on the flags read. *)
Definition score (f : flags) : Z * string :=
  let score := additive f in
  let score := floored f score in
  let score := Z.min score 100 in
  (score, classify_risk (inject_Z score)).

(** Pointwise order: every flag set in [f] is set in [g]. *)
Definition leb (f g : flags) : bool :=
  implb (missing_in_GL f) (missing_in_GL g)
  && implb (amount_mismatch f) (amount_mismatch g)
  && implb (late_posting f) (late_posting g)
  && implb (duplicate f) (duplicate g)
  && implb (unusual_gl f) (unusual_gl g).

End AP.

(** [score_ap_row(row)], lines 22-64. *)
Definition score_ap_row (row : gmap string value) : Z * string :=
  AP.score (AP.read row).

(** ** Model B: Bank *)

Module Bank.

(** The flags as read at lines 81-85. *)
Record flags : Type := Flags {
  no_match : bool;
  inv_paid_no_bank : bool;
  duplicate_payment : bool;
  amount_mismatch : bool;
  unusual_vendor : bool
}.

Definition fields : list string :=
  ["no_matching_invoice"; "invoice_marked_paid_but_no_bank_txn";
   "duplicate_payment"; "amount_mismatch"; "unusual_vendor_payment"].

Definition read (row : gmap string value) : flags :=
  {| no_match := py_bool (row_get row "no_matching_invoice" (VBool false));
     inv_paid_no_bank :=
       py_bool (row_get row "invoice_marked_paid_but_no_bank_txn" (VBool false));
     duplicate_payment := py_bool (row_get row "duplicate_payment" (VBool false));
     amount_mismatch := py_bool (row_get row "amount_mismatch" (VBool false));
     unusual_vendor := py_bool (row_get row "unusual_vendor_payment" (VBool false)) |}.

(** Lines 79 and 87-108: base, weights and the two combination bumps. *)
Definition additive (f : flags) : Z :=
  let score := 5 in
  let score := if unusual_vendor f then score + 10 else score in
  let score := if amount_mismatch f then score + 25 else score in
  let score := if inv_paid_no_bank f then score + 40 else score in
  let score := if no_match f then score + 50 else score in
  let score := if duplicate_payment f then score + 60 else score in
  let score :=
    if duplicate_payment f && amount_mismatch f then score + 15 else score in
  let score :=
    if no_match f &&
       (duplicate_payment f || amount_mismatch f || unusual_vendor f
        || inv_paid_no_bank f)
    then score + 20 else score in
  score.

(** Line 110. *)
Definition count (f : flags) : Z :=
  py_sum [no_match f; inv_paid_no_bank f; duplicate_payment f;
          amount_mismatch f; unusual_vendor f].

(** Lines 111-112. *)
Definition floored (f : flags) (score : Z) : Z :=
  if count f >=? 3 then Z.max score 90 else score.

(** Lines 79-115 on the flags read. *)
Definition score (f : flags) : Z * string :=
  let score := additive f in
  let score := floored f score in
  let score := Z.min score 100 in
  (score, classify_risk (inject_Z score)).

(** Pointwise order: every flag set in [f] is set in [g]. *)
Definition leb (f g : flags) : bool :=
  implb (no_match f) (no_match g)
  && implb (inv_paid_no_bank f) (inv_paid_no_bank g)
  && implb (duplicate_payment f) (duplicate_payment g)
  && implb (amount_mismatch f) (amount_mismatch g)
  && implb (unusual_vendor f) (unusual_vendor g).

End Bank.

(** [score_bank_row(row)], lines 70-115. *)
Definition score_bank_row (row : gmap string value) : Z * string :=
  Bank.score (Bank.read row).

(** ** Model C: Sales and use tax *)

Module Tax.

(** The flags as read at lines 134-138. *)
Record flags : Type := Flags {
  rate_mismatch : bool;
  tax_missing : bool;
  tax_on_non_taxable : bool;
  jurisdiction_missing : bool;
  gl_tax_diff_flag : bool
}.

Definition fields : list string :=
  ["rate_mismatch"; "tax_missing"; "tax_on_nontaxable_item";
   "jurisdiction_missing"; "gl_tax_diff_flag"].

Definition read (row : gmap string value) : flags :=
  {| rate_mismatch := py_bool (row_get row "rate_mismatch" (VBool false));
     tax_missing := py_bool (row_get row "tax_missing" (VBool false));
     tax_on_non_taxable :=
       py_bool (row_get row "tax_on_nontaxable_item" (VBool false));
     jurisdiction_missing :=
       py_bool (row_get row "jurisdiction_missing" (VBool false));
     gl_tax_diff_flag := py_bool (row_get row "gl_tax_diff_flag" (VBool false)) |}.

(** Lines 132 and 141-169: base, weights, the [tax_diff_abs] bump and the
    three combination bumps. *)
Definition additive (f : flags) (tax_diff_abs : pyfloat) : Z :=
  let score := 5 in
  let score := if jurisdiction_missing f then score + 15 else score in
  let score := if rate_mismatch f then score + 30 else score in
  let score := if tax_missing f then score + 40 else score in
  let score := if tax_on_non_taxable f then score + 35 else score in
  let score := if gl_tax_diff_flag f then score + 25 else score in
  let score := if float_gt tax_diff_abs 5 then score + 10 else score in
  let score := if tax_missing f && rate_mismatch f then score + 65 else score in
  let score :=
    if tax_missing f && gl_tax_diff_flag f then score + 70 else score in
  let score :=
    if tax_on_non_taxable f && rate_mismatch f then score + 60 else score in
  score.

(** Lines 171-177. *)
Definition count (f : flags) : Z :=
  py_sum [rate_mismatch f; tax_missing f; tax_on_non_taxable f;
          jurisdiction_missing f; gl_tax_diff_flag f].

(** Lines 178-179. *)
Definition floored (f : flags) (score : Z) : Z :=
  if count f >=? 3 then Z.max score 85 else score.

(** Lines 132-182 on the inputs read. *)
Definition score (f : flags) (tax_diff_abs : pyfloat) : Z * string :=
  let score := additive f tax_diff_abs in
  let score := floored f score in
  let score := Z.min score 100 in
  (score, classify_risk (inject_Z score)).

(** Pointwise order: every flag set in [f] is set in [g]. *)
Definition leb (f g : flags) : bool :=
  implb (rate_mismatch f) (rate_mismatch g)
  && implb (tax_missing f) (tax_missing g)
  && implb (tax_on_non_taxable f) (tax_on_non_taxable g)
  && implb (jurisdiction_missing f) (jurisdiction_missing g)
  && implb (gl_tax_diff_flag f) (gl_tax_diff_flag g).

End Tax.

(** Line 139: [float(row.get("tax_diff_abs", 0.0))]. *)
Definition read_tax_diff_abs (str_to_float : string -> option pyfloat)
    (row : gmap string value) : result pyfloat :=
  py_float str_to_float (row_get row "tax_diff_abs" (VFloat (Fin 0))).

(** [score_tax_row(row)], lines 121-182.  On a row of built-in values the
    only step that can raise is the [float] conversion of line 139. *)
Definition score_tax_row (str_to_float : string -> option pyfloat)
    (row : gmap string value) : result (Z * string) :=
  let f := Tax.read row in
  tax_diff_abs ← read_tax_diff_abs str_to_float row;
  Ok (Tax.score f tax_diff_abs).

(** ** Model D: Lease *)

Module Lease.

(** The flags as read at lines 200-205. *)
Record flags : Type := Flags {
  liab_diff_flag : bool;
  rou_diff_flag : bool;
  missing_periods : bool;
  incorrect_opening : bool;
  classification_flag : bool;
  ip_mismatch : bool
}.

Definition fields : list string :=
  ["schedule_to_GL_liability_diff_flag"; "schedule_to_GL_ROU_diff_flag";
   "missing_periods"; "incorrect_opening_entry"; "classification_flag";
   "ip_sum_mismatch"].

Definition read (row : gmap string value) : flags :=
  {| liab_diff_flag :=
       py_bool (row_get row "schedule_to_GL_liability_diff_flag" (VBool false));
     rou_diff_flag :=
       py_bool (row_get row "schedule_to_GL_ROU_diff_flag" (VBool false));
     missing_periods := py_bool (row_get row "missing_periods" (VBool false));
     incorrect_opening :=
       py_bool (row_get row "incorrect_opening_entry" (VBool false));
     classification_flag :=
       py_bool (row_get row "classification_flag" (VBool false));
     ip_mismatch := py_bool (row_get row "ip_sum_mismatch" (VBool false)) |}.

(** Lines 198 and 209-232: base, weights and the two combination bumps. *)
Definition additive (f : flags) : Z :=
  let score := 5 in
  let score := if liab_diff_flag f then score + 20 else score in
  let score := if rou_diff_flag f then score + 20 else score in
  let score := if missing_periods f then score + 40 else score in
  let score := if incorrect_opening f then score + 50 else score in
  let score := if classification_flag f then score + 45 else score in
  let score := if ip_mismatch f then score + 50 else score in
  let score :=
    if liab_diff_flag f && missing_periods f then score + 30 else score in
  let score :=
    if rou_diff_flag f && incorrect_opening f then score + 35 else score in
  score.

(** Lines 234-241. *)
Definition count (f : flags) : Z :=
  py_sum [liab_diff_flag f; rou_diff_flag f; missing_periods f;
          incorrect_opening f; classification_flag f; ip_mismatch f].

(** Lines 242-243. *)
Definition floored (f : flags) (score : Z) : Z :=
  if count f >=? 3 then Z.max score 90 else score.

(** Lines 198-246 on the flags read. *)
Definition score (f : flags) : Z * string :=
  let score := additive f in
  let score := floored f score in
  let score := Z.min score 100 in
  (score, classify_risk (inject_Z score)).

(** Pointwise order: every flag set in [f] is set in [g]. *)
Definition leb (f g : flags) : bool :=
  implb (liab_diff_flag f) (liab_diff_flag g)
  && implb (rou_diff_flag f) (rou_diff_flag g)
  && implb (missing_periods f) (missing_periods g)
  && implb (incorrect_opening f) (incorrect_opening g)
  && implb (classification_flag f) (classification_flag g)
  && implb (ip_mismatch f) (ip_mismatch g).

End Lease.

(** [score_lease_row(row)], lines 188-246. *)
Definition score_lease_row (row : gmap string value) : Z * string :=
  Lease.score (Lease.read row).

(** ** The four models side by side *)

Inductive model : Type :=
  | ModelA   (* AP, per invoice *)
  | ModelB   (* Bank, per payment *)
  | ModelC   (* Sales and use tax, per invoice *)
  | ModelD.  (* Lease, per lease line *)

(** The scoring function of each model; on a row of built-in values only
    Model C can raise. *)
Definition score_row (str_to_float : string -> option pyfloat) (m : model)
    (row : gmap string value) : result (Z * string) :=
  match m with
  | ModelA => Ok (score_ap_row row)
  | ModelB => Ok (score_bank_row row)
  | ModelC => score_tax_row str_to_float row
  | ModelD => Ok (score_lease_row row)
  end.

(** The boolean flag fields each scoring function reads. *)
Definition flag_fields (m : model) : list string :=
  match m with
  | ModelA => AP.fields
  | ModelB => Bank.fields
  | ModelC => Tax.fields
  | ModelD => Lease.fields
  end.

(** The value of [flags] each scoring function computes from a row. *)
Definition flag_count (m : model) (row : gmap string value) : Z :=
  match m with
  | ModelA => AP.count (AP.read row)
  | ModelB => Bank.count (Bank.read row)
  | ModelC => Tax.count (Tax.read row)
  | ModelD => Lease.count (Lease.read row)
  end.

(** The flag fields of a model that a row holds with a true value. *)
Definition true_flags (m : model) (row : gmap string value) : list string :=
  List.filter (λ k, py_bool (row_get row k (VBool false))) (flag_fields m).

(** The constant of each [max(score, _)]. *)
Definition floor (m : model) : Z :=
  match m with
  | ModelA => 90
  | ModelB => 90
  | ModelC => 85
  | ModelD => 90
  end.

(** The value of [score] before and after the floor step (nothing when
    line 139 has raised before). *)
Definition score_before_floor (str_to_float : string -> option pyfloat)
    (m : model) (row : gmap string value) : result Z :=
  match m with
  | ModelA => Ok (AP.additive (AP.read row))
  | ModelB => Ok (Bank.additive (Bank.read row))
  | ModelC =>
      tax_diff_abs ← read_tax_diff_abs str_to_float row;
      Ok (Tax.additive (Tax.read row) tax_diff_abs)
  | ModelD => Ok (Lease.additive (Lease.read row))
  end.

Definition score_after_floor (str_to_float : string -> option pyfloat)
    (m : model) (row : gmap string value) : result Z :=
  match m with
  | ModelA => Ok (AP.floored (AP.read row) (AP.additive (AP.read row)))
  | ModelB => Ok (Bank.floored (Bank.read row) (Bank.additive (Bank.read row)))
  | ModelC =>
      tax_diff_abs ← read_tax_diff_abs str_to_float row;
      Ok (Tax.floored (Tax.read row) (Tax.additive (Tax.read row) tax_diff_abs))
  | ModelD => Ok (Lease.floored (Lease.read row) (Lease.additive (Lease.read row)))
  end.

(** ** The detector steps of [validator.py] that the scenarios rely on *)

(** [validate_ap], line 60, on one invoice whose two amounts lines 56-57
    have made finite numbers:
    [(Total_Invoice_Amount - Expected_Total).abs() > 25]. *)
Definition amount_mismatch_AP (Total_Invoice_Amount Expected_Total : Q) : bool :=
  Qgt_bool (Qabs (Total_Invoice_Amount - Expected_Total)) 25.

(** [df[col] = v] for a scalar [v]: the value is broadcast to every row of
    the frame (a frame is the list of its rows). *)
Definition set_column (col : string) (v : value)
    (df : list (gmap string value)) : list (gmap string value) :=
  (fun row => <[col := v]> row) <$> df.

(** One row with its two risk columns. *)
Definition with_risk (score_row : gmap string value -> Z * string)
    (row : gmap string value) : gmap string value :=
  let '(risk_score, risk_level) := score_row row in
  <["risk_level" := VStr risk_level]> (<["risk_score" := VInt risk_score]> row).

(** The two risk columns are assigned from [df.apply(score_row, axis=1)],
    unpacked and zipped into a column of scores and a column of levels.
    On a frame without rows [apply] yields nothing to unpack into the two
    targets and the assignment raises [ValueError]. *)
Definition apply_scores (score_row : gmap string value -> Z * string)
    (df : list (gmap string value)) : result (list (gmap string value)) :=
  match df with
  | [] => Raise ValueError
  | _ => Ok (with_risk score_row <$> df)
  end.

(** [validate_bank], lines 109-111; [bank] is the frame as lines 93-107
    have built it. *)
Definition validate_bank (bank : list (gmap string value))
    : result (list (gmap string value)) :=
  let bank := set_column "invoice_marked_paid_but_no_bank_txn" (VBool false) bank in
  apply_scores score_bank_row bank.

(** [validate_leases], lines 179-182; [leases] is the frame as lines
    162-177 have built it. *)
Definition validate_leases (leases : list (gmap string value))
    : result (list (gmap string value)) :=
  let leases := set_column "incorrect_opening_entry" (VBool false) leases in
  let leases := set_column "classification_flag" (VBool false) leases in
  apply_scores score_lease_row leases.

(** ** The tests guarding the combination bumps *)

(** Line 55, under the test of line 51. *)
Definition AP_bump (f : AP.flags) : bool :=
  AP.missing_in_GL f
  && (AP.amount_mismatch f || AP.duplicate f || AP.late_posting f
      || AP.unusual_gl f).

(** Lines 103 and 107. *)
Definition Bank_bump (f : Bank.flags) : bool :=
  (Bank.duplicate_payment f && Bank.amount_mismatch f)
  || (Bank.no_match f
      && (Bank.duplicate_payment f || Bank.amount_mismatch f
          || Bank.unusual_vendor f || Bank.inv_paid_no_bank f)).

(** Lines 162, 165 and 168. *)
Definition Tax_bump (f : Tax.flags) : bool :=
  (Tax.tax_missing f && Tax.rate_mismatch f)
  || (Tax.tax_missing f && Tax.gl_tax_diff_flag f)
  || (Tax.tax_on_non_taxable f && Tax.rate_mismatch f).

(** Lines 228 and 231. *)
Definition Lease_bump (f : Lease.flags) : bool :=
  (Lease.liab_diff_flag f && Lease.missing_periods f)
  || (Lease.rou_diff_flag f && Lease.incorrect_opening f).

(** Whether scoring the row takes at least one combination bump. *)
Definition combo_bump (m : model) (row : gmap string value) : bool :=
  match m with
  | ModelA => AP_bump (AP.read row)
  | ModelB => Bank_bump (Bank.read row)
  | ModelC => Tax_bump (Tax.read row)
  | ModelD => Lease_bump (Lease.read row)
  end.

(** ** Further detector steps of [validator.py] *)

(** An element of a numeric column: [int64] or [float64]. *)
Inductive number : Type :=
  | NInt (z : Z)
  | NFloat (f : pyfloat).

(** The Python value a row holds for an element of a numeric column. *)
Definition number_value (n : number) : value :=
  match n with
  | NInt z => VInt z
  | NFloat f => VFloat f
  end.

(** [int64] arithmetic wraps around. *)
Definition wrap64 (z : Z) : Z := (z + 2 ^ 63) mod 2 ^ 64 - 2 ^ 63.

(** [f == c] for a float [f] and a finite constant [c]. *)
Definition float_eq (f : pyfloat) (c : Q) : bool :=
  match f with
  | Fin q => Qeq_bool q c
  | _ => false
  end.

(** [n > c] and [n == c] for an element [n] and an integer constant [c]. *)
Definition num_gt (n : number) (c : Z) : bool :=
  match n with
  | NInt z => c <? z
  | NFloat f => float_gt f (inject_Z c)
  end.

Definition num_eq (n : number) (c : Z) : bool :=
  match n with
  | NInt z => z =? c
  | NFloat f => float_eq f (inject_Z c)
  end.



(** [abs()] of a float. *)
Definition float_abs (f : pyfloat) : pyfloat :=
  match f with
  | Fin q => Fin (Qabs q)
  | PInf => PInf
  | NInf => PInf
  | NaN => NaN
  end.

(** The float an element is converted to when the other operand is a
    float (its rounding is left to the parameter [float_sub] below). *)
Definition to_float (n : number) : pyfloat :=
  match n with
  | NInt z => Fin (inject_Z z)
  | NFloat f => f
  end.

(** [abs()] of an element; the least [int64] is its own absolute value. *)
Definition num_abs (n : number) : number :=
  match n with
  | NInt z => NInt (wrap64 (Z.abs z))
  | NFloat f => NFloat (float_abs f)
  end.

(** Subtraction before rounding; it instantiates [float_sub] on concrete
    inputs. *)
Definition exact_sub (a b : pyfloat) : pyfloat :=
  match a, b with
  | NaN, _ => NaN
  | _, NaN => NaN
  | Fin x, Fin y => Fin (x - y)
  | Fin _, PInf => NInf
  | Fin _, NInf => PInf
  | PInf, PInf => NaN
  | PInf, _ => PInf
  | NInf, NInf => NaN
  | NInf, _ => NInf
  end.

Section FloatArith.

(** Subtraction of doubles rounds as IEEE 754 prescribes; the rounded
    operation is not part of this repository and is taken as a parameter. *)
Variable float_sub : pyfloat → pyfloat → pyfloat.

(** [a - b] on elements of two numeric columns. *)
Definition num_sub (a b : number) : number :=
  match a, b with
  | NInt x, NInt y => NInt (wrap64 (x - y))
  | _, _ => NFloat (float_sub (to_float a) (to_float b))
  end.

(** [validate_tax], line 142, on one invoice:
    [(Calculated_Tax - Recalc_Tax).abs()]. *)
Definition tax_diff_abs_of (Calculated_Tax Recalc_Tax : number) : number :=
  num_abs (num_sub Calculated_Tax Recalc_Tax).


End FloatArith.


(** [validate_tax], lines 140 and 141, on one invoice. *)
Definition tax_missing_of (Taxable_Amount Calculated_Tax : number) : bool :=
  num_gt Taxable_Amount 0 && num_eq Calculated_Tax 0.

Definition tax_on_nontaxable_item_of (Taxable_Amount Calculated_Tax : number) : bool :=
  num_eq Taxable_Amount 0 && num_gt Calculated_Tax 0.

(** [validate_leases], lines 176-182; [leases] is the frame as lines
    162-166 have built it, and the two booleans are what the comparisons
    [abs(... - ...) > 0] of lines 176 and 177 evaluate to. *)
Definition validate_leases_tie_out (liability_diff rou_diff : bool)
    (leases : list (gmap string value)) : result (list (gmap string value)) :=
  let leases :=
    set_column "schedule_to_GL_liability_diff_flag" (VBool liability_diff) leases in
  let leases :=
    set_column "schedule_to_GL_ROU_diff_flag" (VBool rou_diff) leases in
  validate_leases leases.

(** ** The journal entries of [dashboard.py], lines 311-370 *)

(** What the journal-entry code can raise: [KeyError] from [row[key]] on
    a column the frame does not have, or one of the built-in exceptions. *)
Inductive failure : Type :=
  | KeyError (key : string)
  | PyError (e : exn).

Inductive outcome (A : Type) : Type :=
  | Done (a : A)
  | Failed (f : failure).
Arguments Done {A} a.
Arguments Failed {A} f.

#[global] Instance outcome_ret : MRet outcome := fun A a => Done a.
#[global] Instance outcome_bind : MBind outcome := fun A B k r =>
  match r with
  | Done a => k a
  | Failed f => Failed f
  end.

(** [row[key]]. *)
Definition row_item (row : gmap string value) (key : string) : outcome value :=
  match row !! key with
  | Some v => Done v
  | None => Failed (KeyError key)
  end.

(** [f >= c] for a float [f] and an integer [c]. *)
Definition float_ge (f : pyfloat) (c : Z) : bool :=
  match f with
  | Fin q => Qle_bool (inject_Z c) q
  | PInf => true
  | NInf => false
  | NaN => false
  end.

(** The float an [int] operand is converted to next to a float operand. *)
Definition int_to_float (z : Z) : outcome pyfloat :=
  if Z.abs z <? float_int_limit then Done (Fin (inject_Z z))
  else Failed (PyError OverflowError).

(** [abs(v)]. *)
Definition py_abs (v : value) : outcome value :=
  match v with
  | VBool b => Done (VInt (Z.b2z b))
  | VInt z => Done (VInt (Z.abs z))
  | VFloat f => Done (VFloat (float_abs f))
  | VNone | VStr _ => Failed (PyError TypeError)
  end.

(** [v > c] for an integer constant [c]. *)
Definition py_gt (v : value) (c : Z) : outcome bool :=
  match v with
  | VBool b => Done (c <? Z.b2z b)
  | VInt z => Done (c <? z)
  | VFloat f => Done (float_gt f (inject_Z c))
  | VNone | VStr _ => Failed (PyError TypeError)
  end.

(** One element of [df["risk_score"] >= risk_threshold]. *)
Definition risk_at_least (risk_threshold : Z) (row : gmap string value)
    : outcome bool :=
  risk_score ← row_item row "risk_score";
  match risk_score with
  | VBool b => Done (risk_threshold <=? Z.b2z b)
  | VInt z => Done (risk_threshold <=? z)
  | VFloat f => Done (float_ge f risk_threshold)
  | VNone | VStr _ => Failed (PyError TypeError)
  end.

(** [df[df["risk_score"] >= risk_threshold]]: the comparison is made on the
    whole column before any row is selected.  A row without the field
    stands for a frame without the column. *)
Fixpoint high_risk (risk_threshold : Z) (df : list (gmap string value))
    : outcome (list (gmap string value)) :=
  match df with
  | [] => Done []
  | row :: df =>
      keep ← risk_at_least risk_threshold row;
      rows ← high_risk risk_threshold df;
      Done (if keep : bool then row :: rows else rows)
  end.

(** One row of [je_rows]. *)
Record journal_entry : Type := JournalEntry {
  Source : string;
  Reference : value;
  Debit_Account : string;
  Credit_Account : string;
  Amount : value;
  Description : string
}.

Section JournalEntries.

(** Python's [str()] of a value inside an f-string, [round(x, 2)] of a
    float, and the rounded subtraction and multiplication of doubles are
    not part of this repository: they are parameters. *)
Variable py_str : value → string.
Variable round2 : pyfloat → pyfloat.
Variable float_sub : pyfloat → pyfloat → pyfloat.
Variable float_mul : pyfloat → pyfloat → pyfloat.

(** [round(v, 2)]: an [int] is returned as it is. *)
Definition py_round2 (v : value) : outcome value :=
  match v with
  | VBool b => Done (VInt (Z.b2z b))
  | VInt z => Done (VInt z)
  | VFloat f => Done (VFloat (round2 f))
  | VNone | VStr _ => Failed (PyError TypeError)
  end.

(** [a - b]. *)
Definition py_sub (a b : value) : outcome value :=
  match a, b with
  | VBool x, VBool y => Done (VInt (Z.b2z x - Z.b2z y))
  | VBool x, VInt y => Done (VInt (Z.b2z x - y))
  | VInt x, VBool y => Done (VInt (x - Z.b2z y))
  | VInt x, VInt y => Done (VInt (x - y))
  | VFloat x, VFloat y => Done (VFloat (float_sub x y))
  | VFloat x, VBool y => fy ← int_to_float (Z.b2z y); Done (VFloat (float_sub x fy))
  | VFloat x, VInt y => fy ← int_to_float y; Done (VFloat (float_sub x fy))
  | VBool x, VFloat y => fx ← int_to_float (Z.b2z x); Done (VFloat (float_sub fx y))
  | VInt x, VFloat y => fx ← int_to_float x; Done (VFloat (float_sub fx y))
  | _, _ => Failed (PyError TypeError)
  end.

(** [v * 0.01]. *)
Definition py_mul_0_01 (v : value) : outcome value :=
  match v with
  | VBool b => fv ← int_to_float (Z.b2z b); Done (VFloat (float_mul fv (Fin (1 # 100))))
  | VInt z => fv ← int_to_float z; Done (VFloat (float_mul fv (Fin (1 # 100))))
  | VFloat f => Done (VFloat (float_mul f (Fin (1 # 100))))
  | VNone | VStr _ => Failed (PyError TypeError)
  end.

(** Lines 316-344: the body of the loop over the high-risk AP rows. *)
Definition ap_entry (row : gmap string value) : outcome (option journal_entry) :=
  if py_bool (row_get row "missing_in_GL" VNone) then
    reference ← row_item row "Invoice_ID";
    expected ← row_item row "Expected_Total";
    amount ← py_round2 expected;
    invoice ← row_item row "Invoice_ID";
    Done (Some {| Source := "AP";
                  Reference := reference;
                  Debit_Account := "Project Expense";
                  Credit_Account := "Accounts Payable";
                  Amount := amount;
                  Description := "Record missing AP invoice " +:+ py_str invoice |})
  else if py_bool (row_get row "amount_mismatch" VNone) then
    expected ← row_item row "Expected_Total";
    total ← row_item row "Total_Invoice_Amount";
    diff ← py_sub expected total;
    positive ← py_gt diff 0;
    if positive : bool then
      reference ← row_item row "Invoice_ID";
      magnitude ← py_abs diff;
      amount ← py_round2 magnitude;
      invoice ← row_item row "Invoice_ID";
      Done (Some {| Source := "AP";
                    Reference := reference;
                    Debit_Account := "Project Expense";
                    Credit_Account := "Accounts Payable";
                    Amount := amount;
                    Description :=
                      "Correct AP under-accrual for invoice " +:+ py_str invoice |})
    else
      reference ← row_item row "Invoice_ID";
      magnitude ← py_abs diff;
      amount ← py_round2 magnitude;
      invoice ← row_item row "Invoice_ID";
      Done (Some {| Source := "AP";
                    Reference := reference;
                    Debit_Account := "Accounts Payable";
                    Credit_Account := "Project Expense";
                    Amount := amount;
                    Description :=
                      "Correct AP over-accrual for invoice " +:+ py_str invoice |})
  else Done None.

(** Lines 349-358: the body of the loop over the high-risk tax rows. *)
Definition tax_entry (row : gmap string value) : outcome (option journal_entry) :=
  recalc ← row_item row "Recalc_Tax";
  calculated ← row_item row "Calculated_Tax";
  tax_diff ← py_sub recalc calculated;
  magnitude ← py_abs tax_diff;
  large ← py_gt magnitude 1;
  if large : bool then
    reference ← row_item row "Invoice_ID";
    magnitude ← py_abs tax_diff;
    amount ← py_round2 magnitude;
    invoice ← row_item row "Invoice_ID";
    Done (Some {| Source := "Tax";
                  Reference := reference;
                  Debit_Account := "Sales Tax Expense";
                  Credit_Account := "Sales & Use Tax Payable";
                  Amount := amount;
                  Description := "True-up sales tax for invoice " +:+ py_str invoice |})
  else Done None.

(** Lines 363-370: the body of the loop over the high-risk lease rows. *)
Definition lease_entry (row : gmap string value) : outcome (option journal_entry) :=
  reference ← row_item row "Lease_ID";
  liability ← row_item row "Ending_Lease_Liability";
  one_percent ← py_mul_0_01 liability;
  magnitude ← py_abs one_percent;
  amount ← py_round2 magnitude;
  lease ← row_item row "Lease_ID";
  Done (Some {| Source := "Lease";
                Reference := reference;
                Debit_Account := "Lease Liability";
                Credit_Account := "Prior Period Adjustment";
                Amount := amount;
                Description := "Adjust lease liability for " +:+ py_str lease |}).

(** A loop [for _, row in rows.iterrows(): ...] that appends at most one
    entry per row; the first row that raises ends it. *)
Fixpoint append_entries (entry : gmap string value → outcome (option journal_entry))
    (rows : list (gmap string value)) : outcome (list journal_entry) :=
  match rows with
  | [] => Done []
  | row :: rows =>
      e ← entry row;
      es ← append_entries entry rows;
      Done (match e with
            | Some e => e :: es
            | None => es
            end)
  end.

(** Lines 311-370: [je_rows] from the three frames and the slider's
    threshold. *)
Definition je_rows (risk_threshold : Z)
    (ap_df tax_df lease_df : list (gmap string value))
    : outcome (list journal_entry) :=
  high_risk_ap ← high_risk risk_threshold ap_df;
  ap_entries ← append_entries ap_entry high_risk_ap;
  high_risk_tax ← high_risk risk_threshold tax_df;
  tax_entries ← append_entries tax_entry high_risk_tax;
  high_risk_leases ← high_risk risk_threshold lease_df;
  lease_entries ← append_entries lease_entry high_risk_leases;
  Done (ap_entries ++ tax_entries ++ lease_entries).

End JournalEntries.

(** What [pd.read_csv] leaves in a numeric column: an [int] within
    [int64], hence within the range of [float], or a [float]. *)
Definition numeric_field (row : gmap string value) (key : string) : Prop :=
  (∃ z, row !! key = Some (VInt z) ∧ Z.abs z < float_int_limit)
  ∨ (∃ f, row !! key = Some (VFloat f)).

(** A value a numeric column can hold. *)
Definition is_num (v : value) : Prop :=
  match v with
  | VInt _ | VFloat _ => True
  | _ => False
  end.

(** The columns the journal-entry loops read, as the pipeline's three
    files hold them. *)
Definition ap_columns (row : gmap string value) : Prop :=
  numeric_field row "risk_score" ∧ is_Some (row !! "Invoice_ID")
  ∧ numeric_field row "Expected_Total"
  ∧ numeric_field row "Total_Invoice_Amount".

Definition tax_columns (row : gmap string value) : Prop :=
  numeric_field row "risk_score" ∧ is_Some (row !! "Invoice_ID")
  ∧ numeric_field row "Recalc_Tax" ∧ numeric_field row "Calculated_Tax".

Definition lease_columns (row : gmap string value) : Prop :=
  numeric_field row "risk_score" ∧ is_Some (row !! "Lease_ID")
  ∧ numeric_field row "Ending_Lease_Liability".

(** The three debit and credit pairs an entry can carry, by source, and
    the reversed AP pair. *)
Definition entry_accounts (e : journal_entry) : Prop :=
  (Source e = "AP" ∧ Debit_Account e = "Project Expense"
   ∧ Credit_Account e = "Accounts Payable")
  ∨ (Source e = "AP" ∧ Debit_Account e = "Accounts Payable"
     ∧ Credit_Account e = "Project Expense")
  ∨ (Source e = "Tax" ∧ Debit_Account e = "Sales Tax Expense"
     ∧ Credit_Account e = "Sales & Use Tax Payable")
  ∨ (Source e = "Lease" ∧ Debit_Account e = "Lease Liability"
     ∧ Credit_Account e = "Prior Period Adjustment").

(** Instances of the four parameters for concrete rows: [str()] of a
    text, which is the text itself (the concrete rows format nothing else),
    and the operations on floats before their result is rounded to a
    double. *)
Definition text_of (v : value) : string :=
  match v with
  | VStr s => s
  | _ => ""
  end.

Definition half_even (q : Q) : Z :=
  let n := Qnum q / Z.pos (Qden q) in
  match (q - inject_Z n ?= 1 # 2)%Q with
  | Lt => n
  | Gt => n + 1
  | Eq => if Z.even n then n else n + 1
  end.

Definition exact_round2 (f : pyfloat) : pyfloat :=
  match f with
  | Fin q => Fin (inject_Z (half_even (q * 100)) / 100)
  | _ => f
  end.

Definition exact_mul (a b : pyfloat) : pyfloat :=
  match a, b with
  | NaN, _ => NaN
  | _, NaN => NaN
  | Fin x, Fin y => Fin (x * y)
  | Fin x, PInf => if Qeq_bool x 0 then NaN else if Qle_bool 0 x then PInf else NInf
  | Fin x, NInf => if Qeq_bool x 0 then NaN else if Qle_bool 0 x then NInf else PInf
  | PInf, Fin y => if Qeq_bool y 0 then NaN else if Qle_bool 0 y then PInf else NInf
  | NInf, Fin y => if Qeq_bool y 0 then NaN else if Qle_bool 0 y then NInf else PInf
  | PInf, PInf => PInf
  | NInf, NInf => PInf
  | PInf, NInf => NInf
  | NInf, PInf => NInf
  end.

(** ** Rows of a frame with nullable columns *)

(** A field of a row taken from a frame whose columns may have one of the
    nullable dtypes: a built-in value, or [pd.NA], the missing value of
    those dtypes. *)
Inductive cell : Type :=
  | NA
  | Py (v : value).

(** [v == True] on a built-in value. *)
Definition py_eq_True (v : value) : bool :=
  match v with
  | VBool b => b
  | VInt z => z =? 1
  | VFloat f => float_eq f 1
  | VNone | VStr _ => false
  end.

(** One element of [col == True], [validate_bank] line 102 and
    [validate_leases] line 165: a null of a nullable-boolean column
    compares to [pd.NA], not to [False]. *)
Definition eq_True (c : cell) : cell :=
  match c with
  | NA => NA
  | Py v => Py (VBool (py_eq_True v))
  end.

(** The four scoring functions on such rows.  They differ from the
    definitions above in the conversions only: here [bool] and [float] can
    meet [pd.NA]. *)
Module Nullable.

(** [bool(c)]: the truth value of [pd.NA] is ambiguous and [bool] raises
    [TypeError] on it; on a built-in value it is the truthiness defined
    above. *)
Definition py_bool (c : cell) : result bool :=
  match c with
  | NA => Raise TypeError
  | Py v => Ok (py_bool v)
  end.

(** [float(c)]: [TypeError] on [pd.NA], and on a built-in value the
    conversion defined above. *)
Definition py_float (str_to_float : string → option pyfloat) (c : cell)
    : result pyfloat :=
  match c with
  | NA => Raise TypeError
  | Py v => py_float str_to_float v
  end.

(** [row.get(key, dflt)]. *)
Definition row_get (row : gmap string cell) (key : string) (dflt : value) : cell :=
  default (Py dflt) (row !! key).

(** [bool(row.get(key, False))]. *)
Definition flag (row : gmap string cell) (key : string) : result bool :=
  py_bool (row_get row key (VBool false)).

(** [score_ap_row(row)], lines 22-64: the conversions of lines 33-37 in
    their order, then the rules on the flags read. *)
Definition score_ap_row (row : gmap string cell) : result (Z * string) :=
  missing_in_GL ← flag row "missing_in_GL";
  amount_mismatch ← flag row "amount_mismatch";
  late_posting ← flag row "late_posting";
  duplicate ← flag row "duplicate_invoice_number";
  unusual_gl ← flag row "unusual_GL_account";
  Ok (AP.score {| AP.missing_in_GL := missing_in_GL;
                  AP.amount_mismatch := amount_mismatch;
                  AP.late_posting := late_posting;
                  AP.duplicate := duplicate;
                  AP.unusual_gl := unusual_gl |}).

(** [score_bank_row(row)], lines 70-115. *)
Definition score_bank_row (row : gmap string cell) : result (Z * string) :=
  no_match ← flag row "no_matching_invoice";
  inv_paid_no_bank ← flag row "invoice_marked_paid_but_no_bank_txn";
  duplicate_payment ← flag row "duplicate_payment";
  amount_mismatch ← flag row "amount_mismatch";
  unusual_vendor ← flag row "unusual_vendor_payment";
  Ok (Bank.score {| Bank.no_match := no_match;
                    Bank.inv_paid_no_bank := inv_paid_no_bank;
                    Bank.duplicate_payment := duplicate_payment;
                    Bank.amount_mismatch := amount_mismatch;
                    Bank.unusual_vendor := unusual_vendor |}).

(** Line 139: [float(row.get("tax_diff_abs", 0.0))]. *)
Definition read_tax_diff_abs (str_to_float : string → option pyfloat)
    (row : gmap string cell) : result pyfloat :=
  py_float str_to_float (row_get row "tax_diff_abs" (VFloat (Fin 0))).

(** [score_tax_row(row)], lines 121-182. *)
Definition score_tax_row (str_to_float : string → option pyfloat)
    (row : gmap string cell) : result (Z * string) :=
  rate_mismatch ← flag row "rate_mismatch";
  tax_missing ← flag row "tax_missing";
  tax_on_non_taxable ← flag row "tax_on_nontaxable_item";
  jurisdiction_missing ← flag row "jurisdiction_missing";
  gl_tax_diff_flag ← flag row "gl_tax_diff_flag";
  tax_diff_abs ← read_tax_diff_abs str_to_float row;
  Ok (Tax.score {| Tax.rate_mismatch := rate_mismatch;
                   Tax.tax_missing := tax_missing;
                   Tax.tax_on_non_taxable := tax_on_non_taxable;
                   Tax.jurisdiction_missing := jurisdiction_missing;
                   Tax.gl_tax_diff_flag := gl_tax_diff_flag |} tax_diff_abs).

(** [score_lease_row(row)], lines 188-246. *)
Definition score_lease_row (row : gmap string cell) : result (Z * string) :=
  liab_diff_flag ← flag row "schedule_to_GL_liability_diff_flag";
  rou_diff_flag ← flag row "schedule_to_GL_ROU_diff_flag";
  missing_periods ← flag row "missing_periods";
  incorrect_opening ← flag row "incorrect_opening_entry";
  classification_flag ← flag row "classification_flag";
  ip_mismatch ← flag row "ip_sum_mismatch";
  Ok (Lease.score {| Lease.liab_diff_flag := liab_diff_flag;
                     Lease.rou_diff_flag := rou_diff_flag;
                     Lease.missing_periods := missing_periods;
                     Lease.incorrect_opening := incorrect_opening;
                     Lease.classification_flag := classification_flag;
                     Lease.ip_mismatch := ip_mismatch |}).

(** The scoring function of each model. *)
Definition score_row (str_to_float : string → option pyfloat) (m : model)
    (row : gmap string cell) : result (Z * string) :=
  match m with
  | ModelA => score_ap_row row
  | ModelB => score_bank_row row
  | ModelC => score_tax_row str_to_float row
  | ModelD => score_lease_row row
  end.

End Nullable.

(** ** The AP detector on the elements of two numeric columns *)

(** [validate_ap], line 60, on one invoice, with the arithmetic of the
    columns' dtype: [(Total_Invoice_Amount - Expected_Total).abs() > 25]. *)
Definition amount_mismatch_of (float_sub : pyfloat → pyfloat → pyfloat)
    (Total_Invoice_Amount Expected_Total : number) : bool :=
  num_gt (num_abs (num_sub float_sub Total_Invoice_Amount Expected_Total)) 25.

(** * Properties *)

(** ** Reading a row *)

Lemma row_get_insert_eq (row : gmap string value) k v d :
  row_get (<[k := v]> row) k d = v.
Proof. unfold row_get. by rewrite lookup_insert_eq. Qed.

Lemma row_get_insert_ne (row : gmap string value) k k' v d :
  k ≠ k' → row_get (<[k := v]> row) k' d = row_get row k' d.
Proof. intros Hne. unfold row_get. by rewrite lookup_insert_ne. Qed.

(** Writing the default into an absent field is not observable by [get]. *)
Lemma row_get_insert_default (row : gmap string value) k key d :
  row !! k = None → row_get (<[k := d]> row) key d = row_get row key d.
Proof.
  intros Habs. destruct (decide (k = key)) as [->|Hne].
  - rewrite row_get_insert_eq. unfold row_get. by rewrite Habs.
  - by apply row_get_insert_ne.
Qed.

(** ** The classifier *)

Lemma Qle_bool_false (a b : Q) : Qle_bool a b = false ↔ (b < a)%Q.
Proof.
  split.
  - intros H. apply Qnot_le_lt. intros Hle. apply Qle_bool_iff in Hle. congruence.
  - intros Hlt. destruct (Qle_bool a b) eqn:E; [|done].
    apply Qle_bool_iff in E. lra.
Qed.

Lemma classify_risk_low q : classify_risk q = "Low (5–15%)" ↔ (q <= 20)%Q.
Proof.
  unfold classify_risk. split.
  - destruct (Qle_bool q 20) eqn:E1; [intros _; by apply Qle_bool_iff|].
    destruct (Qle_bool q 40); [done|]. by destruct (Qle_bool q 70).
  - intros H. apply Qle_bool_iff in H. by rewrite H.
Qed.

Lemma classify_risk_medium q :
  classify_risk q = "Medium (20–40%)" ↔ (20 < q <= 40)%Q.
Proof.
  unfold classify_risk. split.
  - destruct (Qle_bool q 20) eqn:E1; [done|].
    destruct (Qle_bool q 40) eqn:E2; [|by destruct (Qle_bool q 70)].
    intros _. split; [by apply Qle_bool_false | by apply Qle_bool_iff].
  - intros [H1 H2]. apply Qle_bool_false in H1. apply Qle_bool_iff in H2.
    by rewrite H1, H2.
Qed.

Lemma classify_risk_high q :
  classify_risk q = "High (50–80%)" ↔ (40 < q <= 70)%Q.
Proof.
  unfold classify_risk. split.
  - destruct (Qle_bool q 20) eqn:E1; [done|].
    destruct (Qle_bool q 40) eqn:E2; [done|].
    destruct (Qle_bool q 70) eqn:E3; [|done].
    intros _. split; [by apply Qle_bool_false | by apply Qle_bool_iff].
  - intros [H1 H2].
    assert (Qle_bool q 20 = false) as -> by (apply Qle_bool_false; lra).
    apply Qle_bool_false in H1. apply Qle_bool_iff in H2. by rewrite H1, H2.
Qed.

Lemma classify_risk_critical q :
  classify_risk q = "Critical (85–99%)" ↔ (70 < q)%Q.
Proof.
  unfold classify_risk. split.
  - destruct (Qle_bool q 20) eqn:E1; [done|].
    destruct (Qle_bool q 40) eqn:E2; [done|].
    destruct (Qle_bool q 70) eqn:E3; [done|].
    intros _. by apply Qle_bool_false.
  - intros H.
    assert (Qle_bool q 20 = false) as -> by (apply Qle_bool_false; lra).
    assert (Qle_bool q 40 = false) as -> by (apply Qle_bool_false; lra).
    apply Qle_bool_false in H. by rewrite H.
Qed.

Lemma classify_risk_levels q : In (classify_risk q) risk_levels.
Proof.
  unfold classify_risk, risk_levels.
  destruct (Qle_bool q 20); [by left|].
  destruct (Qle_bool q 40); [by right; left|].
  destruct (Qle_bool q 70); [by do 2 right; left | by do 3 right; left].
Qed.


(** ** The scoring rules on the flags read *)

Ltac flag_cases5 f := destruct f as [[] [] [] [] []].
Ltac flag_cases6 f := destruct f as [[] [] [] [] [] []].

Lemma py_sum_from (l : list bool) (acc : Z) :
  fold_left (fun a b => a + Z.b2z b) l acc
  = acc + Z.of_nat (length (List.filter (fun b => b) l)).
Proof.
  revert acc. induction l as [|b l IH]; intros acc; simpl; [lia|].
  rewrite IH. destruct b; simpl length; simpl Z.b2z; lia.
Qed.

(** [sum(flags)] is the number of flags that are set. *)
Lemma py_sum_count (l : list bool) :
  py_sum l = Z.of_nat (length (List.filter (fun b => b) l)).
Proof. unfold py_sum. by rewrite py_sum_from. Qed.

Lemma AP_additive_base f : 5 <= AP.additive f.
Proof.
  unfold AP.additive.
  destruct (AP.late_posting f), (AP.amount_mismatch f), (AP.unusual_gl f),
    (AP.duplicate f), (AP.missing_in_GL f); simpl; lia.
Qed.

Lemma AP_score_bounds f : 5 <= (AP.score f).1 <= 100.
Proof.
  unfold AP.score, AP.floored. simpl.
  pose proof (AP_additive_base f). destruct (AP.count f >=? 3); lia.
Qed.

Lemma AP_score_mono_b f g :
  implb (AP.leb f g) ((AP.score f).1 <=? (AP.score g).1) = true.
Proof. flag_cases5 f; flag_cases5 g; reflexivity. Qed.

Lemma AP_score_mono f g :
  AP.leb f g = true → (AP.score f).1 <= (AP.score g).1.
Proof.
  intros H. pose proof (AP_score_mono_b f g) as Hb.
  rewrite H in Hb. by apply Z.leb_le.
Qed.

Lemma Bank_additive_base f : 5 <= Bank.additive f.
Proof.
  unfold Bank.additive.
  destruct (Bank.unusual_vendor f), (Bank.amount_mismatch f),
    (Bank.inv_paid_no_bank f), (Bank.no_match f), (Bank.duplicate_payment f);
    simpl; lia.
Qed.

Lemma Bank_score_bounds f : 5 <= (Bank.score f).1 <= 100.
Proof.
  unfold Bank.score, Bank.floored. simpl.
  pose proof (Bank_additive_base f). destruct (Bank.count f >=? 3); lia.
Qed.

Lemma Bank_score_mono_b f g :
  implb (Bank.leb f g) ((Bank.score f).1 <=? (Bank.score g).1) = true.
Proof. flag_cases5 f; flag_cases5 g; reflexivity. Qed.

Lemma Bank_score_mono f g :
  Bank.leb f g = true → (Bank.score f).1 <= (Bank.score g).1.
Proof.
  intros H. pose proof (Bank_score_mono_b f g) as Hb.
  rewrite H in Hb. by apply Z.leb_le.
Qed.

Lemma Tax_additive_base f t : 5 <= Tax.additive f t.
Proof.
  unfold Tax.additive.
  destruct (Tax.jurisdiction_missing f), (Tax.rate_mismatch f),
    (Tax.tax_missing f), (Tax.tax_on_non_taxable f), (Tax.gl_tax_diff_flag f),
    (float_gt t 5); simpl; lia.
Qed.

Lemma Tax_score_bounds f t : 5 <= (Tax.score f t).1 <= 100.
Proof.
  unfold Tax.score, Tax.floored. simpl.
  pose proof (Tax_additive_base f t). destruct (Tax.count f >=? 3); lia.
Qed.

Lemma Tax_score_mono_b f g (bump : bool) :
  implb (Tax.leb f g)
    (Z.min (Tax.floored f (Tax.additive f (if bump then PInf else NInf))) 100
     <=? Z.min (Tax.floored g (Tax.additive g (if bump then PInf else NInf))) 100)
  = true.
Proof. destruct bump; flag_cases5 f; flag_cases5 g; reflexivity. Qed.

(** The rules see [tax_diff_abs] only through the test [tax_diff_abs > 5]. *)
Lemma Tax_additive_bump f t :
  Tax.additive f t = Tax.additive f (if float_gt t 5 then PInf else NInf).
Proof. unfold Tax.additive. by destruct (float_gt t 5). Qed.

Lemma Tax_score_mono f g t :
  Tax.leb f g = true → (Tax.score f t).1 <= (Tax.score g t).1.
Proof.
  intros H. pose proof (Tax_score_mono_b f g (float_gt t 5)) as Hb.
  rewrite H in Hb. apply Z.leb_le in Hb.
  unfold Tax.score. simpl. by rewrite (Tax_additive_bump f), (Tax_additive_bump g).
Qed.

Lemma Lease_additive_base f : 5 <= Lease.additive f.
Proof.
  unfold Lease.additive.
  destruct (Lease.liab_diff_flag f), (Lease.rou_diff_flag f),
    (Lease.missing_periods f), (Lease.incorrect_opening f),
    (Lease.classification_flag f), (Lease.ip_mismatch f); simpl; lia.
Qed.

Lemma Lease_score_bounds f : 5 <= (Lease.score f).1 <= 100.
Proof.
  unfold Lease.score, Lease.floored. simpl.
  pose proof (Lease_additive_base f). destruct (Lease.count f >=? 3); lia.
Qed.

Lemma Lease_score_mono_b f g :
  implb (Lease.leb f g) ((Lease.score f).1 <=? (Lease.score g).1) = true.
Proof. flag_cases6 f; flag_cases6 g; reflexivity. Qed.

Lemma Lease_score_mono f g :
  Lease.leb f g = true → (Lease.score f).1 <= (Lease.score g).1.
Proof.
  intros H. pose proof (Lease_score_mono_b f g) as Hb.
  rewrite H in Hb. by apply Z.leb_le.
Qed.

(** ** Reading the flags of a changed row *)

(** Splits [In k fields] into one goal per field name. *)
Ltac each_field H :=
  simpl in H;
  repeat (destruct H as [<-|H]; [|try (exfalso; exact H)]).

Ltac other_field Hn :=
  let E := fresh in intros E; apply Hn; rewrite E; simpl; tauto.

Lemma AP_read_insert_other (row : gmap string value) k v :
  ¬ In k AP.fields → AP.read (<[k := v]> row) = AP.read row.
Proof.
  intros Hn. unfold AP.read.
  rewrite !row_get_insert_ne; [done|other_field Hn..].
Qed.

Lemma Bank_read_insert_other (row : gmap string value) k v :
  ¬ In k Bank.fields → Bank.read (<[k := v]> row) = Bank.read row.
Proof.
  intros Hn. unfold Bank.read.
  rewrite !row_get_insert_ne; [done|other_field Hn..].
Qed.

Lemma Tax_read_insert_other (row : gmap string value) k v :
  ¬ In k Tax.fields → Tax.read (<[k := v]> row) = Tax.read row.
Proof.
  intros Hn. unfold Tax.read.
  rewrite !row_get_insert_ne; [done|other_field Hn..].
Qed.

Lemma Lease_read_insert_other (row : gmap string value) k v :
  ¬ In k Lease.fields → Lease.read (<[k := v]> row) = Lease.read row.
Proof.
  intros Hn. unfold Lease.read.
  rewrite !row_get_insert_ne; [done|other_field Hn..].
Qed.

(** Setting a flag that read as false moves the flags up in the order. *)
Ltac raise_flag Hin Hf :=
  each_field Hin; simpl;
  rewrite ?row_get_insert_eq, ?row_get_insert_ne by done;
  rewrite Hf; simpl; rewrite ?implb_same; done.

Lemma AP_read_insert_leb (row : gmap string value) k v :
  In k AP.fields → py_bool (row_get row k (VBool false)) = false →
  AP.leb (AP.read row) (AP.read (<[k := v]> row)) = true.
Proof. intros Hin Hf. unfold AP.leb, AP.read. raise_flag Hin Hf. Qed.

Lemma Bank_read_insert_leb (row : gmap string value) k v :
  In k Bank.fields → py_bool (row_get row k (VBool false)) = false →
  Bank.leb (Bank.read row) (Bank.read (<[k := v]> row)) = true.
Proof. intros Hin Hf. unfold Bank.leb, Bank.read. raise_flag Hin Hf. Qed.

Lemma Tax_read_insert_leb (row : gmap string value) k v :
  In k Tax.fields → py_bool (row_get row k (VBool false)) = false →
  Tax.leb (Tax.read row) (Tax.read (<[k := v]> row)) = true.
Proof. intros Hin Hf. unfold Tax.leb, Tax.read. raise_flag Hin Hf. Qed.

Lemma Lease_read_insert_leb (row : gmap string value) k v :
  In k Lease.fields → py_bool (row_get row k (VBool false)) = false →
  Lease.leb (Lease.read row) (Lease.read (<[k := v]> row)) = true.
Proof. intros Hin Hf. unfold Lease.leb, Lease.read. raise_flag Hin Hf. Qed.

(** Rows that agree on the flag fields read the same flags. *)
Lemma row_get_agree (row1 row2 : gmap string value) k d :
  row1 !! k = row2 !! k → row_get row1 k d = row_get row2 k d.
Proof. unfold row_get. by intros ->. Qed.

Ltac agree H := apply row_get_agree, H; simpl; tauto.

Lemma AP_read_agree (row1 row2 : gmap string value) :
  (∀ k, In k AP.fields → row1 !! k = row2 !! k) → AP.read row1 = AP.read row2.
Proof. intros H. unfold AP.read. f_equal; f_equal; agree H. Qed.

Lemma Bank_read_agree (row1 row2 : gmap string value) :
  (∀ k, In k Bank.fields → row1 !! k = row2 !! k) →
  Bank.read row1 = Bank.read row2.
Proof. intros H. unfold Bank.read. f_equal; f_equal; agree H. Qed.

Lemma Tax_read_agree (row1 row2 : gmap string value) :
  (∀ k, In k Tax.fields → row1 !! k = row2 !! k) → Tax.read row1 = Tax.read row2.
Proof. intros H. unfold Tax.read. f_equal; f_equal; agree H. Qed.

Lemma Lease_read_agree (row1 row2 : gmap string value) :
  (∀ k, In k Lease.fields → row1 !! k = row2 !! k) →
  Lease.read row1 = Lease.read row2.
Proof. intros H. unfold Lease.read. f_equal; f_equal; agree H. Qed.

(** An absent flag reads as an explicit [False]. *)
Lemma AP_read_absent (row : gmap string value) k :
  row !! k = None → AP.read (<[k := VBool false]> row) = AP.read row.
Proof. intros H. unfold AP.read. by rewrite !row_get_insert_default. Qed.

Lemma Bank_read_absent (row : gmap string value) k :
  row !! k = None → Bank.read (<[k := VBool false]> row) = Bank.read row.
Proof. intros H. unfold Bank.read. by rewrite !row_get_insert_default. Qed.

Lemma Tax_read_absent (row : gmap string value) k :
  row !! k = None → Tax.read (<[k := VBool false]> row) = Tax.read row.
Proof. intros H. unfold Tax.read. by rewrite !row_get_insert_default. Qed.

Lemma Lease_read_absent (row : gmap string value) k :
  row !! k = None → Lease.read (<[k := VBool false]> row) = Lease.read row.
Proof. intros H. unfold Lease.read. by rewrite !row_get_insert_default. Qed.

(** [tax_diff_abs] is not one of the flag fields. *)
Lemma tax_diff_abs_not_flag : ¬ In "tax_diff_abs" Tax.fields.
Proof. simpl. intros H. repeat (destruct H as [H|H]; [discriminate H|]). done. Qed.

Lemma read_tax_diff_abs_insert_flag stf (row : gmap string value) k v :
  In k Tax.fields →
  read_tax_diff_abs stf (<[k := v]> row) = read_tax_diff_abs stf row.
Proof.
  intros Hin. unfold read_tax_diff_abs. rewrite row_get_insert_ne; [done|].
  intros ->. by apply tax_diff_abs_not_flag.
Qed.

(** ** Results of the four scoring functions *)

Lemma score_tax_row_ok stf (row : gmap string value) t :
  read_tax_diff_abs stf row = Ok t →
  score_tax_row stf row = Ok (Tax.score (Tax.read row) t).
Proof. intros H. unfold score_tax_row. by rewrite H. Qed.

Lemma score_tax_row_raise stf (row : gmap string value) e :
  read_tax_diff_abs stf row = Raise e → score_tax_row stf row = Raise e.
Proof. intros H. unfold score_tax_row. by rewrite H. Qed.

(** ** The scoring functions on rows that may hold [pd.NA] *)

Lemma Nullable_row_get_fmap (row : gmap string value) k d :
  Nullable.row_get (Py <$> row) k d = Py (row_get row k d).
Proof.
  unfold Nullable.row_get, row_get. rewrite lookup_fmap.
  by destruct (row !! k).
Qed.

(** On a row of built-in values the four scoring functions are the ones
    defined first. *)
Lemma Nullable_score_row_built_in stf m (row : gmap string value) :
  Nullable.score_row stf m (Py <$> row) = score_row stf m row.
Proof.
  destruct m; simpl.
  - unfold Nullable.score_ap_row, Nullable.flag.
    by rewrite !Nullable_row_get_fmap.
  - unfold Nullable.score_bank_row, Nullable.flag.
    by rewrite !Nullable_row_get_fmap.
  - unfold Nullable.score_tax_row, Nullable.read_tax_diff_abs, Nullable.flag.
    by rewrite !Nullable_row_get_fmap.
  - unfold Nullable.score_lease_row, Nullable.flag.
    by rewrite !Nullable_row_get_fmap.
Qed.

(** [bool] returns on every flag field that is absent or holds a built-in
    value. *)
Lemma Nullable_flag_returns (row : gmap string cell) k :
  row !! k ≠ Some NA → ∃ b, Nullable.flag row k = Ok b.
Proof.
  intros Hna. unfold Nullable.flag, Nullable.row_get.
  destruct (row !! k) as [[|v]|]; simpl; [done|by eexists..].
Qed.

(** An absent flag field reads as [False], without raising. *)
Lemma Nullable_flag_absent (row : gmap string cell) k :
  row !! k = None → Nullable.flag row k = Ok false.
Proof. intros H. unfold Nullable.flag, Nullable.row_get. by rewrite H. Qed.

Lemma Nullable_row_get_insert_ne (row : gmap string cell) k k' c d :
  k ≠ k' → Nullable.row_get (<[k := c]> row) k' d = Nullable.row_get row k' d.
Proof. intros Hne. unfold Nullable.row_get. by rewrite lookup_insert_ne. Qed.

(** Writing the default into an absent field is not observable by [get]. *)
Lemma Nullable_row_get_insert_default (row : gmap string cell) k key d :
  row !! k = None →
  Nullable.row_get (<[k := Py d]> row) key d = Nullable.row_get row key d.
Proof.
  intros Habs. destruct (decide (k = key)) as [->|Hne].
  - unfold Nullable.row_get. by rewrite lookup_insert_eq, Habs.
  - by apply Nullable_row_get_insert_ne.
Qed.

Lemma Nullable_flag_insert_default (row : gmap string cell) k key :
  row !! k = None →
  Nullable.flag (<[k := Py (VBool false)]> row) key = Nullable.flag row key.
Proof.
  intros H. unfold Nullable.flag. by rewrite Nullable_row_get_insert_default.
Qed.

Lemma Nullable_read_tax_diff_abs_absent stf (row : gmap string cell) :
  row !! "tax_diff_abs" = None → Nullable.read_tax_diff_abs stf row = Ok (Fin 0).
Proof.
  intros H. unfold Nullable.read_tax_diff_abs, Nullable.row_get. by rewrite H.
Qed.

(** Rewrites with the value of one flag conversion that returns. *)
Ltac flag_returns Hna key :=
  let b := fresh "b" in
  let H := fresh "H" in
  destruct (Nullable_flag_returns _ key (Hna key ltac:(simpl; tauto))) as [b H];
  rewrite H; clear H.

(** Each scoring function returns on a row none of whose flag fields holds
    [pd.NA] and, for Model C, whose [tax_diff_abs] line 139 converts; what it
    returns is a score from 5 to 100 with that score's band. *)
Lemma Nullable_score_row_returns stf m (row : gmap string cell) :
  (∀ k, In k (flag_fields m) → row !! k ≠ Some NA) →
  (m = ModelC → ∃ t, Nullable.read_tax_diff_abs stf row = Ok t) →
  ∃ p, Nullable.score_row stf m row = Ok p
    ∧ 5 <= p.1 <= 100 ∧ p.2 = classify_risk (inject_Z p.1).
Proof.
  intros Hna Hfloat. destruct m; simpl in Hna |- *.
  - unfold Nullable.score_ap_row.
    flag_returns Hna "missing_in_GL". flag_returns Hna "amount_mismatch".
    flag_returns Hna "late_posting". flag_returns Hna "duplicate_invoice_number".
    flag_returns Hna "unusual_GL_account".
    eexists. split; [reflexivity|]. split; [apply AP_score_bounds|done].
  - unfold Nullable.score_bank_row.
    flag_returns Hna "no_matching_invoice".
    flag_returns Hna "invoice_marked_paid_but_no_bank_txn".
    flag_returns Hna "duplicate_payment". flag_returns Hna "amount_mismatch".
    flag_returns Hna "unusual_vendor_payment".
    eexists. split; [reflexivity|]. split; [apply Bank_score_bounds|done].
  - destruct (Hfloat eq_refl) as [t Ht]. unfold Nullable.score_tax_row.
    flag_returns Hna "rate_mismatch". flag_returns Hna "tax_missing".
    flag_returns Hna "tax_on_nontaxable_item".
    flag_returns Hna "jurisdiction_missing". flag_returns Hna "gl_tax_diff_flag".
    rewrite Ht.
    eexists. split; [reflexivity|]. split; [apply Tax_score_bounds|done].
  - unfold Nullable.score_lease_row.
    flag_returns Hna "schedule_to_GL_liability_diff_flag".
    flag_returns Hna "schedule_to_GL_ROU_diff_flag".
    flag_returns Hna "missing_periods". flag_returns Hna "incorrect_opening_entry".
    flag_returns Hna "classification_flag". flag_returns Hna "ip_sum_mismatch".
    eexists. split; [reflexivity|]. split; [apply Lease_score_bounds|done].
Qed.

(** C1, as stated, fails: a bank row whose [duplicate_payment] is what line
    102 of [validate_bank] makes of a null in a nullable-boolean
    [Duplicate_Payment_Flag] holds [pd.NA] there; [bool] raises [TypeError]
    on it at line 83, so [score_bank_row] returns no score at all. *)
Lemma score_bank_row_NA_raises :
  Nullable.score_row no_numeric_text ModelB
    {[ "no_matching_invoice" := Py (VBool false);
       "duplicate_payment" := eq_True NA;
       "amount_mismatch" := Py (VBool false);
       "unusual_vendor_payment" := Py (VBool false);
       "invoice_marked_paid_but_no_bank_txn" := Py (VBool false) ]}
  = Raise TypeError.
Proof. vm_compute. reflexivity. Qed.

(** C1, amended: on every row whose flag fields are absent or hold built-in
    values, and, for [score_tax_row], whose [tax_diff_abs] is absent or
    accepted by [float], each of the four scoring functions returns a score
    in [5,100] (so in [0,100]) with the band [classify_risk] gives that
    score, one of the four levels. *)
Theorem score_row_bounds stf m (row : gmap string cell) :
  (∀ k, In k (flag_fields m) → row !! k ≠ Some NA) →
  (m = ModelC → ∃ t, Nullable.read_tax_diff_abs stf row = Ok t) →
  ∃ s b, Nullable.score_row stf m row = Ok (s, b)
    ∧ 0 <= s <= 100 ∧ 5 <= s
    ∧ b = classify_risk (inject_Z s) ∧ In b risk_levels.
Proof.
  intros Hna Hfloat.
  destruct (Nullable_score_row_returns stf m row Hna Hfloat)
    as ([s b] & Hp & Hs & Hb).
  simpl in Hs, Hb. exists s, b. subst b.
  repeat split; try done; try lia. apply classify_risk_levels.
Qed.

Lemma score_row_bounds_witness :
  ∃ s b,
    Nullable.score_row no_numeric_text ModelC
      {[ "tax_missing" := Py (VBool true); "gl_tax_diff_flag" := eq_True (Py (VBool false));
         "tax_diff_abs" := Py (VInt 12) ]} = Ok (s, b)
    ∧ 0 <= s <= 100 ∧ 5 <= s
    ∧ b = classify_risk (inject_Z s) ∧ In b risk_levels.
Proof.
  apply (score_row_bounds no_numeric_text ModelC).
  - intros k Hk. simpl in Hk.
    repeat (destruct Hk as [<-|Hk]; [vm_compute; discriminate|]).
    destruct Hk.
  - intros _. eexists. vm_compute. reflexivity.
Defined.

(** C2: in each of the four scoring functions, setting one flag field that
    read as false to a true value, all other fields unchanged, never
    decreases the returned score (and the changed row is scored whenever the
    original one is). *)
Theorem score_row_monotone stf m (row : gmap string value) k v s b :
  In k (flag_fields m) →
  py_bool (row_get row k (VBool false)) = false →
  py_bool v = true →
  score_row stf m row = Ok (s, b) →
  ∃ s' b', score_row stf m (<[k := v]> row) = Ok (s', b') ∧ s <= s'.
Proof.
  intros Hin Hoff Hon Hscore. destruct m; simpl in *.
  - exists (score_ap_row (<[k := v]> row)).1, (score_ap_row (<[k := v]> row)).2.
    split; [by destruct (score_ap_row _)|].
    injection Hscore as Hs _. rewrite <- Hs.
    by apply AP_score_mono, AP_read_insert_leb.
  - exists (score_bank_row (<[k := v]> row)).1, (score_bank_row (<[k := v]> row)).2.
    split; [by destruct (score_bank_row _)|].
    injection Hscore as Hs _. rewrite <- Hs.
    by apply Bank_score_mono, Bank_read_insert_leb.
  - unfold score_tax_row in *.
    rewrite read_tax_diff_abs_insert_flag by done.
    destruct (read_tax_diff_abs stf row) as [t|e]; simpl in *; [|discriminate].
    eexists _, _. split; [reflexivity|].
    injection Hscore as Hs _. rewrite <- Hs.
    by apply (Tax_score_mono _ _ t), Tax_read_insert_leb.
  - exists (score_lease_row (<[k := v]> row)).1, (score_lease_row (<[k := v]> row)).2.
    split; [by destruct (score_lease_row _)|].
    injection Hscore as Hs _. rewrite <- Hs.
    by apply Lease_score_mono, Lease_read_insert_leb.
Qed.

Lemma score_row_monotone_witness :
  ∃ s' b',
    score_row no_numeric_text ModelC
      (<["rate_mismatch" := VBool true]>
         {[ "tax_missing" := VBool true; "rate_mismatch" := VBool false ]})
    = Ok (s', b') ∧ 45 <= s'.
Proof.
  apply (score_row_monotone no_numeric_text ModelC
           {[ "tax_missing" := VBool true; "rate_mismatch" := VBool false ]}
           "rate_mismatch" (VBool true) 45 "High (50–80%)").
  - simpl. tauto.
  - reflexivity.
  - reflexivity.
  - vm_compute. reflexivity.
Defined.

(** [flags], the sum each scoring function takes, is the number of its
    flag fields that the row holds true. *)
Lemma flag_count_true_flags m (row : gmap string value) :
  flag_count m row = Z.of_nat (length (true_flags m row)).
Proof.
  unfold flag_count, true_flags, flag_fields.
  destruct m;
    unfold AP.count, AP.read, AP.fields, Bank.count, Bank.read, Bank.fields,
      Tax.count, Tax.read, Tax.fields, Lease.count, Lease.read, Lease.fields;
    simpl;
    repeat match goal with
           | |- context [py_bool ?v] => destruct (py_bool v)
           end; reflexivity.
Qed.

(** C3: in every row with at least 3 of the model's flags true the returned
    score is at least the model's floor (AP 90, Bank 90, Tax 85, Lease 90);
    the floor step is a [max]: it leaves the score at or above the sum of
    the rules, and a sum already above the floor is returned as it is, up to
    the final [min] with 100. *)
Theorem floor_rule stf m (row : gmap string value) s b :
  score_row stf m row = Ok (s, b) →
  ∃ before after,
    score_before_floor stf m row = Ok before
    ∧ score_after_floor stf m row = Ok after
    ∧ s = Z.min after 100
    ∧ before <= after
    ∧ (3 <= flag_count m row → after = Z.max before (floor m) ∧ floor m <= s)
    ∧ ((3 <= length (true_flags m row))%nat → floor m <= s)
    ∧ (flag_count m row < 3 → after = before).
Proof.
  intros Hscore.
  assert (∃ before,
    score_before_floor stf m row = Ok before
    ∧ score_after_floor stf m row
      = Ok (if flag_count m row >=? 3 then Z.max before (floor m) else before)
    ∧ s = Z.min (if flag_count m row >=? 3 then Z.max before (floor m)
                 else before) 100) as (before & Hbefore & Hafter & Hs).
  { destruct m; simpl in *.
    - injection Hscore as <- _. by eexists.
    - injection Hscore as <- _. by eexists.
    - unfold score_tax_row in Hscore.
      destruct (read_tax_diff_abs stf row) as [t|e]; simpl in *; [|discriminate].
      injection Hscore as <- _. by eexists.
    - injection Hscore as <- _. by eexists. }
  exists before, (if flag_count m row >=? 3 then Z.max before (floor m) else before).
  do 3 (split; [done|]).
  pose proof (flag_count_true_flags m row) as Hcount.
  assert (floor m <= 100) as Hfloor by (destruct m; simpl; lia).
  destruct (flag_count m row >=? 3) eqn:E.
  - apply Z.geb_le in E. repeat split; lia.
  - rewrite Z.geb_leb in E. apply Z.leb_gt in E. repeat split; lia.
Qed.

Lemma floor_rule_witness :
  ∃ before after,
    score_before_floor no_numeric_text ModelA
      {[ "late_posting" := VBool true; "amount_mismatch" := VBool true;
         "unusual_GL_account" := VBool true ]} = Ok before
    ∧ score_after_floor no_numeric_text ModelA
        {[ "late_posting" := VBool true; "amount_mismatch" := VBool true;
           "unusual_GL_account" := VBool true ]} = Ok after
    ∧ 90 = Z.min after 100
    ∧ before <= after
    ∧ (3 <= flag_count ModelA
              {[ "late_posting" := VBool true; "amount_mismatch" := VBool true;
                 "unusual_GL_account" := VBool true ]} →
       after = Z.max before (floor ModelA) ∧ floor ModelA <= 90)
    ∧ ((3 <= length
               (true_flags ModelA
                  {[ "late_posting" := VBool true; "amount_mismatch" := VBool true;
                     "unusual_GL_account" := VBool true ]}))%nat →
       floor ModelA <= 90)
    ∧ (flag_count ModelA
         {[ "late_posting" := VBool true; "amount_mismatch" := VBool true;
            "unusual_GL_account" := VBool true ]} < 3 → after = before).
Proof.
  apply (floor_rule no_numeric_text ModelA
           {[ "late_posting" := VBool true; "amount_mismatch" := VBool true;
              "unusual_GL_account" := VBool true ]} 90 "Critical (85–99%)").
  vm_compute. reflexivity.
Defined.

(** The band is computed from the final score and from nothing else. *)
Lemma score_row_band stf m (row : gmap string value) s b :
  score_row stf m row = Ok (s, b) → b = classify_risk (inject_Z s).
Proof.
  destruct m; simpl; try (intros [= <- <-]; reflexivity).
  unfold score_tax_row. destruct (read_tax_diff_abs stf row); simpl; [|done].
  by intros [= <- <-].
Qed.

(** C4: [classify_risk] sends 20 to Low, 21 and 40 to Medium, 41 and 70 to
    High, 71 to Critical; on [0,100] a score gets the band Low exactly in
    [0,20], Medium in (20,40], High in (40,70] and Critical in (70,100], so
    the four ranges cover [0,100] without gap or overlap; and the band a
    scoring function returns is [classify_risk] of the score it returns. *)
Theorem classify_risk_bands :
  classify_risk 20 = "Low (5–15%)"
  ∧ classify_risk 21 = "Medium (20–40%)"
  ∧ classify_risk 40 = "Medium (20–40%)"
  ∧ classify_risk 41 = "High (50–80%)"
  ∧ classify_risk 70 = "High (50–80%)"
  ∧ classify_risk 71 = "Critical (85–99%)"
  ∧ (∀ q, (0 <= q <= 100)%Q →
       (classify_risk q = "Low (5–15%)" ↔ (0 <= q <= 20)%Q)
       ∧ (classify_risk q = "Medium (20–40%)" ↔ (20 < q <= 40)%Q)
       ∧ (classify_risk q = "High (50–80%)" ↔ (40 < q <= 70)%Q)
       ∧ (classify_risk q = "Critical (85–99%)" ↔ (70 < q <= 100)%Q))
  ∧ (∀ q q', (q == q')%Q → classify_risk q = classify_risk q')
  ∧ (∀ stf m (row : gmap string value) s b,
       score_row stf m row = Ok (s, b) → b = classify_risk (inject_Z s)).
Proof.
  do 6 (split; [reflexivity|]). split; [|split].
  - intros q [H0 H100]. split; [|split; [|split]].
    + rewrite classify_risk_low. tauto.
    + apply classify_risk_medium.
    + apply classify_risk_high.
    + rewrite classify_risk_critical. tauto.
  - intros q q' Heq. unfold classify_risk.
    assert (∀ c, Qle_bool q c = Qle_bool q' c) as Hc.
    { intros c. destruct (Qle_bool q' c) eqn:E.
      - apply Qle_bool_iff. apply Qle_bool_iff in E. by rewrite Heq.
      - apply Qle_bool_false. apply Qle_bool_false in E. by rewrite Heq. }
    by rewrite !Hc.
  - apply score_row_band.
Qed.

Lemma classify_risk_bands_witness :
  (classify_risk (41 # 2) = "Low (5–15%)" ↔ (0 <= 41 # 2 <= 20)%Q)
  ∧ (classify_risk (41 # 2) = "Medium (20–40%)" ↔ (20 < 41 # 2 <= 40)%Q)
  ∧ (classify_risk (41 # 2) = "High (50–80%)" ↔ (40 < 41 # 2 <= 70)%Q)
  ∧ (classify_risk (41 # 2) = "Critical (85–99%)" ↔ (70 < 41 # 2 <= 100)%Q).
Proof.
  apply (proj1 (proj2 (proj2 (proj2 (proj2 (proj2 (proj2 classify_risk_bands))))))).
  split; [apply Qle_bool_iff | apply Qle_bool_iff]; reflexivity.
Defined.

(** C10: whatever the score, [classify_risk] returns one of the four
    annotated strings, each of which some score gets; they carry their
    percentage ranges and none is a bare band name; the level a scoring
    function returns is one of them. *)
Theorem classify_risk_labels :
  (∀ q, In (classify_risk q)
          ["Low (5–15%)"; "Medium (20–40%)"; "High (50–80%)";
           "Critical (85–99%)"])
  ∧ (∀ l, In l ["Low (5–15%)"; "Medium (20–40%)"; "High (50–80%)";
               "Critical (85–99%)"] → ∃ q, classify_risk q = l)
  ∧ (∀ q l, In l ["Low"; "Medium"; "High"; "Critical"] → classify_risk q ≠ l)
  ∧ (∀ stf m (row : gmap string value) s b,
       score_row stf m row = Ok (s, b) →
       In b ["Low (5–15%)"; "Medium (20–40%)"; "High (50–80%)";
             "Critical (85–99%)"]).
Proof.
  split; [|split; [|split]].
  - apply classify_risk_levels.
  - intros l Hl. simpl in Hl.
    destruct Hl as [<-|[<-|[<-|[<-|[]]]]];
      [by exists 5%Q | by exists 30%Q | by exists 55%Q | by exists 90%Q].
  - intros q l Hl Heq. pose proof (classify_risk_levels q) as Hq.
    rewrite Heq in Hq. simpl in Hl, Hq.
    destruct Hl as [<-|[<-|[<-|[<-|[]]]]];
      repeat (destruct Hq as [Hq|Hq]; [discriminate Hq|]); exact Hq.
  - intros stf m row s b Hscore. rewrite (score_row_band _ _ _ _ _ Hscore).
    apply classify_risk_levels.
Qed.

(** C5, as stated, fails for [score_tax_row]: two tax rows with the same
    flag fields and a different [tax_diff_abs] get different scores and
    levels. *)
Lemma tax_diff_abs_changes_result :
  (∀ k, In k (flag_fields ModelC) →
     ({[ "jurisdiction_missing" := VBool true;
         "tax_diff_abs" := VFloat (Fin 0) ]} : gmap string value) !! k
     = ({[ "jurisdiction_missing" := VBool true;
           "tax_diff_abs" := VFloat (Fin 10) ]} : gmap string value) !! k)
  ∧ score_row no_numeric_text ModelC
      {[ "jurisdiction_missing" := VBool true; "tax_diff_abs" := VFloat (Fin 0) ]}
    = Ok (20, "Low (5–15%)")
  ∧ score_row no_numeric_text ModelC
      {[ "jurisdiction_missing" := VBool true; "tax_diff_abs" := VFloat (Fin 10) ]}
    = Ok (30, "Medium (20–40%)").
Proof.
  split; [|split; vm_compute; reflexivity].
  intros k Hk. each_field Hk; vm_compute; reflexivity.
Qed.

(** C5, amended: two rows that agree on all the flag fields of the model get
    the same result from [score_ap_row], [score_bank_row] and
    [score_lease_row], whatever their other fields hold; from
    [score_tax_row] they get the same result when they also agree on
    [tax_diff_abs]. *)
Theorem score_row_inputs stf m (row1 row2 : gmap string value) :
  (∀ k, In k (flag_fields m) → row1 !! k = row2 !! k) →
  (m = ModelC → row1 !! "tax_diff_abs" = row2 !! "tax_diff_abs") →
  score_row stf m row1 = score_row stf m row2.
Proof.
  intros Hflags Hdiff. destruct m; simpl in *.
  - unfold score_ap_row. by rewrite (AP_read_agree row1 row2).
  - unfold score_bank_row. by rewrite (Bank_read_agree row1 row2).
  - unfold score_tax_row, read_tax_diff_abs.
    rewrite (Tax_read_agree row1 row2) by done.
    by rewrite (row_get_agree row1 row2) by auto.
  - unfold score_lease_row. by rewrite (Lease_read_agree row1 row2).
Qed.

Lemma score_row_inputs_witness :
  score_row no_numeric_text ModelC
    {[ "tax_missing" := VBool true; "tax_diff_abs" := VInt 7;
       "State" := VStr "FL" ]}
  = score_row no_numeric_text ModelC
      {[ "tax_missing" := VBool true; "tax_diff_abs" := VInt 7;
         "State" := VStr "GA"; "Tax_Rate" := VFloat (Fin 0) ]}.
Proof.
  apply (score_row_inputs no_numeric_text ModelC).
  - intros k Hk. each_field Hk; vm_compute; reflexivity.
  - intros _. vm_compute. reflexivity.
Defined.

(** C6: for an AP invoice with Total_Invoice_Amount 1000 and Expected_Total
    1100 line 60 of [validate_ap] sets [amount_mismatch]; with no other flag
    true [score_ap_row] adds 30 to the base 5 and returns 35, in the Medium
    band. *)
Theorem ap_amount_mismatch_scenario (row : gmap string value) :
  row !! "amount_mismatch" = Some (VBool (amount_mismatch_AP 1000 1100)) →
  (∀ k, In k AP.fields → k ≠ "amount_mismatch" →
     py_bool (row_get row k (VBool false)) = false) →
  amount_mismatch_AP 1000 1100 = true
  ∧ AP.additive (AP.read row) = 5 + 30
  ∧ score_ap_row row = (35, "Medium (20–40%)").
Proof.
  intros Hflag Hothers.
  assert (AP.read row = AP.Flags false true false false false) as Hread.
  { unfold AP.read.
    rewrite (Hothers "missing_in_GL"), (Hothers "late_posting"),
      (Hothers "duplicate_invoice_number"), (Hothers "unusual_GL_account");
      try done; try (simpl; tauto).
    unfold row_get. by rewrite Hflag. }
  split; [reflexivity|].
  unfold score_ap_row. rewrite Hread. split; reflexivity.
Qed.

Lemma ap_amount_mismatch_scenario_witness :
  amount_mismatch_AP 1000 1100 = true
  ∧ AP.additive
      (AP.read {[ "Total_Invoice_Amount" := VInt 1000;
                  "Expected_Total" := VInt 1100;
                  "amount_mismatch" := VBool (amount_mismatch_AP 1000 1100);
                  "missing_in_GL" := VBool false;
                  "late_posting" := VBool false;
                  "duplicate_invoice_number" := VBool false;
                  "unusual_GL_account" := VBool false ]}) = 5 + 30
  ∧ score_ap_row
      {[ "Total_Invoice_Amount" := VInt 1000;
         "Expected_Total" := VInt 1100;
         "amount_mismatch" := VBool (amount_mismatch_AP 1000 1100);
         "missing_in_GL" := VBool false;
         "late_posting" := VBool false;
         "duplicate_invoice_number" := VBool false;
         "unusual_GL_account" := VBool false ]}
    = (35, "Medium (20–40%)").
Proof.
  apply ap_amount_mismatch_scenario.
  - vm_compute. reflexivity.
  - intros k Hk Hne. each_field Hk; try (vm_compute; reflexivity).
    by destruct Hne.
Defined.

(** C7: a tax row with [tax_missing] and [gl_tax_diff_flag] true and the
    other three flags false is returned with score 100 and the Critical
    band; with no [tax_diff_abs] bump the sum of the rules is
    5 + 40 + 25 + 70 = 140, the two weights and the bump for the pair, and
    the final [min] brings it to 100. *)
Theorem tax_missing_gl_diff_scenario stf (row : gmap string value) t :
  Tax.read row
  = {| Tax.rate_mismatch := false; Tax.tax_missing := true;
       Tax.tax_on_non_taxable := false; Tax.jurisdiction_missing := false;
       Tax.gl_tax_diff_flag := true |} →
  read_tax_diff_abs stf row = Ok t →
  score_tax_row stf row = Ok (100, "Critical (85–99%)")
  ∧ (float_gt t 5 = false →
     score_before_floor stf ModelC row = Ok (5 + 40 + 25 + 70)
     ∧ score_after_floor stf ModelC row = Ok 140
     ∧ Z.min 140 100 = 100).
Proof.
  intros Hread Ht. rewrite (score_tax_row_ok _ _ _ Ht). simpl.
  rewrite Ht, Hread. simpl.
  unfold Tax.score, Tax.floored, Tax.additive. simpl.
  destruct (float_gt t 5); [by split|].
  split; [reflexivity|]. intros _. by repeat split.
Qed.

Lemma tax_missing_gl_diff_scenario_witness :
  score_tax_row no_numeric_text
    {[ "tax_missing" := VBool true; "gl_tax_diff_flag" := VBool true;
       "rate_mismatch" := VBool false; "tax_on_nontaxable_item" := VBool false;
       "jurisdiction_missing" := VBool false; "tax_diff_abs" := VFloat (Fin 0) ]}
  = Ok (100, "Critical (85–99%)")
  ∧ (float_gt (Fin 0) 5 = false →
     score_before_floor no_numeric_text ModelC
       {[ "tax_missing" := VBool true; "gl_tax_diff_flag" := VBool true;
          "rate_mismatch" := VBool false; "tax_on_nontaxable_item" := VBool false;
          "jurisdiction_missing" := VBool false; "tax_diff_abs" := VFloat (Fin 0) ]}
     = Ok (5 + 40 + 25 + 70)
     ∧ score_after_floor no_numeric_text ModelC
         {[ "tax_missing" := VBool true; "gl_tax_diff_flag" := VBool true;
            "rate_mismatch" := VBool false; "tax_on_nontaxable_item" := VBool false;
            "jurisdiction_missing" := VBool false; "tax_diff_abs" := VFloat (Fin 0) ]}
       = Ok 140
     ∧ Z.min 140 100 = 100).
Proof.
  apply tax_missing_gl_diff_scenario; vm_compute; reflexivity.
Defined.

(** An absent [tax_diff_abs] reads as the default 0.0. *)
Lemma read_tax_diff_abs_absent stf (row : gmap string value) :
  row !! "tax_diff_abs" = None → read_tax_diff_abs stf row = Ok (Fin 0).
Proof. intros H. unfold read_tax_diff_abs, row_get. by rewrite H. Qed.

(** C8, as stated, fails: a call on a row that lacks flag fields need not
    return.  This bank row lacks four of the five flags, and its
    [duplicate_payment] is what line 102 of [validate_bank] makes of a null
    in a nullable-boolean [Duplicate_Payment_Flag]: [bool] raises
    [TypeError] on it at line 83. *)
Lemma absent_flag_row_NA_raises :
  In "amount_mismatch" (flag_fields ModelB)
  ∧ ({[ "duplicate_payment" := eq_True NA ]} : gmap string cell)
      !! "amount_mismatch" = None
  ∧ Nullable.score_row no_numeric_text ModelB
      {[ "duplicate_payment" := eq_True NA ]}
    = Raise TypeError.
Proof. split; [simpl; tauto|]. split; vm_compute; reflexivity. Qed.

(** C8, amended: a flag field that is absent is read as [False], without
    raising, and the row is scored exactly as the same row with that flag
    set to [False] (the two calls return the same result, or raise the same
    exception); an absent [tax_diff_abs] is read as 0.0 and scored as an
    explicit 0.0.  The call returns whenever the fields that are present
    hold values [bool] and, for [tax_diff_abs], [float] accept; a row
    without any of the fields read gets the base score. *)
Theorem absent_flag_defaults stf m (row : gmap string cell) k :
  In k (flag_fields m) →
  row !! k = None →
  Nullable.flag row k = Ok false
  ∧ Nullable.score_row stf m row
    = Nullable.score_row stf m (<[k := Py (VBool false)]> row)
  ∧ (row !! "tax_diff_abs" = None →
     Nullable.read_tax_diff_abs stf row = Ok (Fin 0)
     ∧ Nullable.score_tax_row stf row
       = Nullable.score_tax_row stf (<["tax_diff_abs" := Py (VFloat (Fin 0))]> row))
  ∧ ((∀ k', In k' (flag_fields m) → row !! k' ≠ Some NA) →
     (m = ModelC → ∃ t, Nullable.read_tax_diff_abs stf row = Ok t) →
     ∃ s b, Nullable.score_row stf m row = Ok (s, b))
  ∧ ((∀ k', In k' (flag_fields m) → row !! k' = None) →
     row !! "tax_diff_abs" = None →
     Nullable.score_row stf m row = Ok (5, "Low (5–15%)")).
Proof.
  intros Hin Habs. split; [by apply Nullable_flag_absent|].
  split; [|split; [|split]].
  - destruct m; simpl in *.
    + unfold Nullable.score_ap_row. by rewrite !Nullable_flag_insert_default.
    + unfold Nullable.score_bank_row. by rewrite !Nullable_flag_insert_default.
    + unfold Nullable.score_tax_row, Nullable.read_tax_diff_abs.
      rewrite !Nullable_flag_insert_default by done.
      rewrite Nullable_row_get_insert_ne; [done|].
      intros ->. by apply tax_diff_abs_not_flag.
    + unfold Nullable.score_lease_row. by rewrite !Nullable_flag_insert_default.
  - intros Hdiff. split; [by apply Nullable_read_tax_diff_abs_absent|].
    unfold Nullable.score_tax_row, Nullable.read_tax_diff_abs, Nullable.flag.
    rewrite Nullable_row_get_insert_default by done.
    by rewrite !Nullable_row_get_insert_ne by done.
  - intros Hna Hfloat.
    destruct (Nullable_score_row_returns stf m row Hna Hfloat)
      as ([s b] & Hp & _).
    by exists s, b.
  - intros Hall Hdiff. destruct m; simpl in Hall |- *.
    + unfold Nullable.score_ap_row.
      by rewrite !Nullable_flag_absent by (apply Hall; simpl; tauto).
    + unfold Nullable.score_bank_row.
      by rewrite !Nullable_flag_absent by (apply Hall; simpl; tauto).
    + unfold Nullable.score_tax_row.
      rewrite !Nullable_flag_absent by (apply Hall; simpl; tauto).
      by rewrite Nullable_read_tax_diff_abs_absent.
    + unfold Nullable.score_lease_row.
      by rewrite !Nullable_flag_absent by (apply Hall; simpl; tauto).
Qed.

Lemma absent_flag_defaults_witness :
  Nullable.flag {[ "duplicate_payment" := Py (VBool true) ]} "amount_mismatch"
  = Ok false
  ∧ Nullable.score_row no_numeric_text ModelB
      {[ "duplicate_payment" := Py (VBool true) ]}
    = Nullable.score_row no_numeric_text ModelB
        (<["amount_mismatch" := Py (VBool false)]>
           {[ "duplicate_payment" := Py (VBool true) ]})
  ∧ Nullable.score_row no_numeric_text ModelB
      {[ "duplicate_payment" := Py (VBool true) ]}
    = Ok (65, "High (50–80%)").
Proof.
  destruct (absent_flag_defaults no_numeric_text ModelB
              {[ "duplicate_payment" := Py (VBool true) ]} "amount_mismatch")
    as (Hflag & Hsame & _).
  - simpl. tauto.
  - vm_compute. reflexivity.
  - split; [exact Hflag|]. split; [exact Hsame|]. vm_compute. reflexivity.
Defined.

(** ** The reserved flags in the pipeline's output *)

Lemma elem_of_set_column col v (df : list (gmap string value)) row :
  row ∈ set_column col v df ↔ ∃ row0, row = <[col := v]> row0 ∧ row0 ∈ df.
Proof. unfold set_column. apply list_elem_of_fmap. Qed.

Lemma elem_of_apply_scores score_row (df out : list (gmap string value)) row :
  apply_scores score_row df = Ok out → row ∈ out →
  ∃ row0, row0 ∈ df ∧ row = with_risk score_row row0.
Proof.
  intros Hok Hin. destruct df as [|r df]; [discriminate Hok|].
  assert (out = with_risk score_row <$> r :: df) as -> by (by injection Hok).
  apply list_elem_of_fmap in Hin as (row0 & -> & Hin0). by exists row0.
Qed.

Lemma with_risk_lookup score_row (row : gmap string value) k :
  k ≠ "risk_score" → k ≠ "risk_level" →
  with_risk score_row row !! k = row !! k.
Proof.
  intros Hs Hl. unfold with_risk. destruct (score_row row) as [s l].
  by rewrite !lookup_insert_ne.
Qed.



(** C9: in every row [validate_bank] and [validate_leases] produce, the
    reserved flags [invoice_marked_paid_but_no_bank_txn],
    [incorrect_opening_entry] and [classification_flag] hold [False]; the
    row was scored with these flags read as false, so the tests guarding
    the +40, +50 and +45 weights and the +35 bump for the pair
    [rou_diff_flag], [incorrect_opening] were all false. *)
Theorem reserved_flags_false (bank leases bank' leases' : list (gmap string value)) :
  validate_bank bank = Ok bank' →
  validate_leases leases = Ok leases' →
  (∀ row, row ∈ bank' →
     row !! "invoice_marked_paid_but_no_bank_txn" = Some (VBool false)
     ∧ ∃ scored, row = with_risk score_bank_row scored
         ∧ Bank.inv_paid_no_bank (Bank.read scored) = false)
  ∧ (∀ row, row ∈ leases' →
       row !! "incorrect_opening_entry" = Some (VBool false)
       ∧ row !! "classification_flag" = Some (VBool false)
       ∧ ∃ scored, row = with_risk score_lease_row scored
           ∧ Lease.incorrect_opening (Lease.read scored) = false
           ∧ Lease.classification_flag (Lease.read scored) = false
           ∧ Lease.rou_diff_flag (Lease.read scored)
             && Lease.incorrect_opening (Lease.read scored) = false).
Proof.
  intros Hbank Hleases. split.
  - intros row Hrow. unfold validate_bank in Hbank.
    destruct (elem_of_apply_scores _ _ _ _ Hbank Hrow) as (scored & Hin & ->).
    apply elem_of_set_column in Hin as (row0 & -> & _). split.
    + rewrite with_risk_lookup by done. apply lookup_insert_eq.
    + eexists. split; [reflexivity|]. simpl. by rewrite row_get_insert_eq.
  - intros row Hrow. unfold validate_leases in Hleases.
    destruct (elem_of_apply_scores _ _ _ _ Hleases Hrow) as (scored & Hin & ->).
    apply elem_of_set_column in Hin as (row1 & -> & Hin).
    apply elem_of_set_column in Hin as (row0 & -> & _).
    split; [|split].
    + rewrite with_risk_lookup by done.
      rewrite lookup_insert_ne by done. apply lookup_insert_eq.
    + rewrite with_risk_lookup by done. apply lookup_insert_eq.
    + eexists. split; [reflexivity|]. simpl.
      rewrite row_get_insert_eq.
      rewrite (row_get_insert_ne _ "classification_flag") by done.
      rewrite row_get_insert_eq. simpl. by rewrite andb_false_r.
Qed.

Lemma reserved_flags_false_witness :
  (∀ row,
     row ∈ [with_risk score_bank_row
              (<["invoice_marked_paid_but_no_bank_txn" := VBool false]>
                 {[ "invoice_marked_paid_but_no_bank_txn" := VBool true;
                    "duplicate_payment" := VBool true ]})] →
     row !! "invoice_marked_paid_but_no_bank_txn" = Some (VBool false)
     ∧ ∃ scored, row = with_risk score_bank_row scored
         ∧ Bank.inv_paid_no_bank (Bank.read scored) = false)
  ∧ (∀ row,
       row ∈ [with_risk score_lease_row
                (<["classification_flag" := VBool false]>
                   (<["incorrect_opening_entry" := VBool false]>
                      {[ "schedule_to_GL_ROU_diff_flag" := VBool true;
                         "incorrect_opening_entry" := VInt 1 ]}))] →
       row !! "incorrect_opening_entry" = Some (VBool false)
       ∧ row !! "classification_flag" = Some (VBool false)
       ∧ ∃ scored, row = with_risk score_lease_row scored
           ∧ Lease.incorrect_opening (Lease.read scored) = false
           ∧ Lease.classification_flag (Lease.read scored) = false
           ∧ Lease.rou_diff_flag (Lease.read scored)
             && Lease.incorrect_opening (Lease.read scored) = false).
Proof.
  apply (reserved_flags_false
           [ {[ "invoice_marked_paid_but_no_bank_txn" := VBool true;
                "duplicate_payment" := VBool true ]} ]
           [ {[ "schedule_to_GL_ROU_diff_flag" := VBool true;
                "incorrect_opening_entry" := VInt 1 ]} ]);
    reflexivity.
Defined.

(** * Further properties of the scoring rules *)

(** ** Strict growth below the cap *)

Lemma AP_score_strict_b f g :
  implb (AP.leb f g && negb (AP.leb g f) && ((AP.score f).1 <? 100))
    ((AP.score f).1 <? (AP.score g).1) = true.
Proof. flag_cases5 f; flag_cases5 g; reflexivity. Qed.

Lemma Bank_score_strict_b f g :
  implb (Bank.leb f g && negb (Bank.leb g f) && ((Bank.score f).1 <? 100))
    ((Bank.score f).1 <? (Bank.score g).1) = true.
Proof. flag_cases5 f; flag_cases5 g; reflexivity. Qed.

Lemma Tax_score_strict_b f g (bump : bool) :
  implb (Tax.leb f g && negb (Tax.leb g f)
         && ((Tax.score f (if bump then PInf else NInf)).1 <? 100))
    ((Tax.score f (if bump then PInf else NInf)).1
     <? (Tax.score g (if bump then PInf else NInf)).1) = true.
Proof. destruct bump; flag_cases5 f; flag_cases5 g; reflexivity. Qed.

Lemma Lease_score_strict_b f g :
  implb (Lease.leb f g && negb (Lease.leb g f) && ((Lease.score f).1 <? 100))
    ((Lease.score f).1 <? (Lease.score g).1) = true.
Proof. flag_cases6 f; flag_cases6 g; reflexivity. Qed.

(** The score sees [tax_diff_abs] only through the test of line 158. *)
Lemma Tax_score_bump f t :
  Tax.score f t = Tax.score f (if float_gt t 5 then PInf else NInf).
Proof. unfold Tax.score. by rewrite (Tax_additive_bump f t). Qed.

(** Reading back a flag that was false and is now set: the new flags are
    not below the old ones. *)
Ltac flag_not_below Hin Hoff Hon :=
  each_field Hin; simpl;
  rewrite ?row_get_insert_eq, ?row_get_insert_ne by done;
  rewrite Hoff, Hon; simpl; rewrite ?andb_false_r; done.

Lemma AP_read_insert_not_leb (row : gmap string value) k v :
  In k AP.fields → py_bool (row_get row k (VBool false)) = false →
  py_bool v = true →
  AP.leb (AP.read (<[k := v]> row)) (AP.read row) = false.
Proof. intros Hin Hoff Hon. unfold AP.leb, AP.read. flag_not_below Hin Hoff Hon. Qed.

Lemma Bank_read_insert_not_leb (row : gmap string value) k v :
  In k Bank.fields → py_bool (row_get row k (VBool false)) = false →
  py_bool v = true →
  Bank.leb (Bank.read (<[k := v]> row)) (Bank.read row) = false.
Proof. intros Hin Hoff Hon. unfold Bank.leb, Bank.read. flag_not_below Hin Hoff Hon. Qed.

Lemma Tax_read_insert_not_leb (row : gmap string value) k v :
  In k Tax.fields → py_bool (row_get row k (VBool false)) = false →
  py_bool v = true →
  Tax.leb (Tax.read (<[k := v]> row)) (Tax.read row) = false.
Proof. intros Hin Hoff Hon. unfold Tax.leb, Tax.read. flag_not_below Hin Hoff Hon. Qed.

Lemma Lease_read_insert_not_leb (row : gmap string value) k v :
  In k Lease.fields → py_bool (row_get row k (VBool false)) = false →
  py_bool v = true →
  Lease.leb (Lease.read (<[k := v]> row)) (Lease.read row) = false.
Proof. intros Hin Hoff Hon. unfold Lease.leb, Lease.read. flag_not_below Hin Hoff Hon. Qed.

(** From the boolean form of strict growth to the order on [Z]. *)
Lemma strict_from_b (le ge : bool) (s s' : Z) :
  implb (le && negb ge && (s <? 100)) (s <? s') = true →
  le = true → ge = false → s < 100 → s < s'.
Proof.
  intros Hb -> -> Hs. apply Z.ltb_lt in Hs. rewrite Hs in Hb.
  by apply Z.ltb_lt.
Qed.

(** X1: in each of the four scoring functions, setting one flag field that
    read as false to a true value strictly raises the returned score, unless
    the score had already reached the cap of 100. *)
Theorem score_row_strict stf m (row : gmap string value) k v s b :
  In k (flag_fields m) →
  py_bool (row_get row k (VBool false)) = false →
  py_bool v = true →
  score_row stf m row = Ok (s, b) →
  s < 100 →
  ∃ s' b', score_row stf m (<[k := v]> row) = Ok (s', b') ∧ s < s'.
Proof.
  intros Hin Hoff Hon Hscore Hcap.
  destruct m; cbn [score_row flag_fields] in *.
  - assert (score_ap_row row = (s, b)) as Hsc by congruence.
    exists (score_ap_row (<[k := v]> row)).1, (score_ap_row (<[k := v]> row)).2.
    split; [by destruct (score_ap_row _)|].
    replace s with (score_ap_row row).1 in * by (by rewrite Hsc).
    eapply strict_from_b; [apply AP_score_strict_b| | |done].
    + by apply AP_read_insert_leb.
    + by apply AP_read_insert_not_leb.
  - assert (score_bank_row row = (s, b)) as Hsc by congruence.
    exists (score_bank_row (<[k := v]> row)).1, (score_bank_row (<[k := v]> row)).2.
    split; [by destruct (score_bank_row _)|].
    replace s with (score_bank_row row).1 in * by (by rewrite Hsc).
    eapply strict_from_b; [apply Bank_score_strict_b| | |done].
    + by apply Bank_read_insert_leb.
    + by apply Bank_read_insert_not_leb.
  - destruct (read_tax_diff_abs stf row) as [t|e] eqn:Ht;
      [|by rewrite (score_tax_row_raise _ _ _ Ht) in Hscore].
    rewrite (score_tax_row_ok _ _ _ Ht) in Hscore.
    assert (Tax.score (Tax.read row) t = (s, b)) as Hsc by congruence.
    rewrite (score_tax_row_ok stf (<[k := v]> row) t)
      by (by rewrite read_tax_diff_abs_insert_flag).
    exists (Tax.score (Tax.read (<[k := v]> row)) t).1,
      (Tax.score (Tax.read (<[k := v]> row)) t).2.
    split; [by destruct (Tax.score _ _)|].
    replace s with (Tax.score (Tax.read row) t).1 in * by (by rewrite Hsc).
    rewrite (Tax_score_bump (Tax.read row)) in *.
    rewrite (Tax_score_bump (Tax.read (<[k := v]> row))).
    eapply strict_from_b; [apply Tax_score_strict_b| | |done].
    + by apply Tax_read_insert_leb.
    + by apply Tax_read_insert_not_leb.
  - assert (score_lease_row row = (s, b)) as Hsc by congruence.
    exists (score_lease_row (<[k := v]> row)).1, (score_lease_row (<[k := v]> row)).2.
    split; [by destruct (score_lease_row _)|].
    replace s with (score_lease_row row).1 in * by (by rewrite Hsc).
    eapply strict_from_b; [apply Lease_score_strict_b| | |done].
    + by apply Lease_read_insert_leb.
    + by apply Lease_read_insert_not_leb.
Qed.

Lemma score_row_strict_witness :
  ∃ s' b',
    score_row no_numeric_text ModelB
      (<["amount_mismatch" := VInt 1]> {[ "duplicate_payment" := VBool true ]})
    = Ok (s', b') ∧ 65 < s'.
Proof.
  apply (score_row_strict no_numeric_text ModelB
           {[ "duplicate_payment" := VBool true ]} "amount_mismatch" (VInt 1)
           65 "High (50–80%)").
  - simpl. tauto.
  - reflexivity.
  - reflexivity.
  - vm_compute. reflexivity.
  - lia.
Defined.

(** ** The base score, the grid of scores, and what the rules read *)

Lemma AP_score_facts_b f :
  Bool.eqb ((AP.score f).1 =? 5) (AP.count f =? 0)
  && ((AP.score f).1 mod 5 =? 0)
  && implb (AP_bump f) (85 <=? (AP.score f).1) = true.
Proof. flag_cases5 f; reflexivity. Qed.

Lemma Bank_score_facts_b f :
  Bool.eqb ((Bank.score f).1 =? 5) (Bank.count f =? 0)
  && ((Bank.score f).1 mod 5 =? 0)
  && implb (Bank_bump f) (85 <=? (Bank.score f).1) = true.
Proof. flag_cases5 f; reflexivity. Qed.

Lemma Tax_score_facts_b f (bump : bool) :
  Bool.eqb ((Tax.score f (if bump then PInf else NInf)).1 =? 5)
    ((Tax.count f =? 0) && negb bump)
  && ((Tax.score f (if bump then PInf else NInf)).1 mod 5 =? 0)
  && implb (Tax_bump f) (85 <=? (Tax.score f (if bump then PInf else NInf)).1)
  = true.
Proof. destruct bump; flag_cases5 f; reflexivity. Qed.

Lemma Lease_score_facts_b f :
  Bool.eqb ((Lease.score f).1 =? 5) (Lease.count f =? 0)
  && ((Lease.score f).1 mod 5 =? 0)
  && implb (Lease_bump f) (85 <=? (Lease.score f).1)
  && (Lease.floored f (Lease.additive f) =? Lease.additive f) = true.
Proof. flag_cases6 f; reflexivity. Qed.

(** What a returned pair is, model by model. *)
Lemma score_row_inv stf m (row : gmap string value) s b :
  score_row stf m row = Ok (s, b) →
  match m with
  | ModelA => AP.score (AP.read row) = (s, b)
  | ModelB => Bank.score (Bank.read row) = (s, b)
  | ModelC =>
      ∃ t, read_tax_diff_abs stf row = Ok t
        ∧ Tax.score (Tax.read row) (if float_gt t 5 then PInf else NInf) = (s, b)
  | ModelD => Lease.score (Lease.read row) = (s, b)
  end.
Proof.
  destruct m; cbn [score_row]; unfold score_ap_row, score_bank_row, score_lease_row;
    try congruence.
  intros Hscore. destruct (read_tax_diff_abs stf row) as [t|e] eqn:Ht;
    [|by rewrite (score_tax_row_raise _ _ _ Ht) in Hscore].
  rewrite (score_tax_row_ok _ _ _ Ht) in Hscore. exists t. split; [done|].
  rewrite <- Tax_score_bump. congruence.
Qed.

Lemma true_flags_nil m (row : gmap string value) :
  true_flags m row = [] ↔ flag_count m row = 0.
Proof.
  rewrite flag_count_true_flags. destruct (true_flags m row); simpl; [done|].
  split; [done|lia].
Qed.

(** X2: a row gets the base score 5 exactly when none of its flag fields
    holds a true value and, for [score_tax_row], [tax_diff_abs] does not
    exceed 5. *)
Theorem score_row_base stf m (row : gmap string value) s b :
  score_row stf m row = Ok (s, b) →
  s = 5 ↔
  true_flags m row = []
  ∧ (m = ModelC → ∀ t, read_tax_diff_abs stf row = Ok t → float_gt t 5 = false).
Proof.
  intros Hscore. apply score_row_inv in Hscore. rewrite true_flags_nil.
  destruct m; cbn [flag_count].
  - pose proof (AP_score_facts_b (AP.read row)) as Hb. rewrite Hscore in Hb.
    simpl in Hb. destruct (s =? 5) eqn:Es, (AP.count (AP.read row) =? 0) eqn:Ec;
      try discriminate Hb.
    + apply Z.eqb_eq in Es, Ec. split; [split; [done|discriminate]|done].
    + apply Z.eqb_neq in Es, Ec. split; [done|tauto].
  - pose proof (Bank_score_facts_b (Bank.read row)) as Hb. rewrite Hscore in Hb.
    simpl in Hb. destruct (s =? 5) eqn:Es, (Bank.count (Bank.read row) =? 0) eqn:Ec;
      try discriminate Hb.
    + apply Z.eqb_eq in Es, Ec. split; [split; [done|discriminate]|done].
    + apply Z.eqb_neq in Es, Ec. split; [done|tauto].
  - destruct Hscore as (t & Ht & Hscore).
    pose proof (Tax_score_facts_b (Tax.read row) (float_gt t 5)) as Hb.
    rewrite Hscore in Hb. simpl in Hb.
    destruct (s =? 5) eqn:Es, (Tax.count (Tax.read row) =? 0) eqn:Ec,
      (float_gt t 5) eqn:Et; try discriminate Hb.
    + apply Z.eqb_eq in Es, Ec. split; [|done]. intros _. split; [done|].
      intros _ t' Ht'. congruence.
    + apply Z.eqb_neq in Es. apply Z.eqb_eq in Ec. split; [done|].
      intros [_ H]. specialize (H eq_refl t Ht). congruence.
    + apply Z.eqb_neq in Es, Ec. split; [done|tauto].
    + apply Z.eqb_neq in Es, Ec. split; [done|tauto].
  - pose proof (Lease_score_facts_b (Lease.read row)) as Hb. rewrite Hscore in Hb.
    simpl in Hb. destruct (s =? 5) eqn:Es, (Lease.count (Lease.read row) =? 0) eqn:Ec;
      try discriminate Hb.
    + apply Z.eqb_eq in Es, Ec. split; [split; [done|discriminate]|done].
    + apply Z.eqb_neq in Es, Ec. split; [done|tauto].
Qed.

Lemma score_row_base_witness :
  5 = 5 ↔
  true_flags ModelC {[ "tax_diff_abs" := VFloat (Fin 5); "State" := VStr "FL" ]} = []
  ∧ (ModelC = ModelC → ∀ t,
       read_tax_diff_abs no_numeric_text
         {[ "tax_diff_abs" := VFloat (Fin 5); "State" := VStr "FL" ]} = Ok t →
       float_gt t 5 = false).
Proof.
  apply (score_row_base no_numeric_text ModelC
           {[ "tax_diff_abs" := VFloat (Fin 5); "State" := VStr "FL" ]}
           5 "Low (5–15%)").
  vm_compute. reflexivity.
Defined.

(** X3: every score the four functions return is a multiple of 5. *)
Theorem score_row_multiple_of_5 stf m (row : gmap string value) s b :
  score_row stf m row = Ok (s, b) → s mod 5 = 0.
Proof.
  intros Hscore. apply score_row_inv in Hscore. apply Z.eqb_eq. destruct m.
  - pose proof (AP_score_facts_b (AP.read row)) as Hb. rewrite Hscore in Hb.
    simpl in Hb. by destruct (s mod 5 =? 0); [|rewrite andb_false_r in Hb].
  - pose proof (Bank_score_facts_b (Bank.read row)) as Hb. rewrite Hscore in Hb.
    simpl in Hb. by destruct (s mod 5 =? 0); [|rewrite andb_false_r in Hb].
  - destruct Hscore as (t & _ & Hscore).
    pose proof (Tax_score_facts_b (Tax.read row) (float_gt t 5)) as Hb.
    rewrite Hscore in Hb.
    simpl in Hb. by destruct (s mod 5 =? 0); [|rewrite andb_false_r in Hb].
  - pose proof (Lease_score_facts_b (Lease.read row)) as Hb. rewrite Hscore in Hb.
    simpl in Hb. apply andb_prop in Hb as [Hb _].
    by destruct (s mod 5 =? 0); [|rewrite andb_false_r in Hb].
Qed.

Lemma score_row_multiple_of_5_witness : 95 mod 5 = 0.
Proof.
  apply (score_row_multiple_of_5 no_numeric_text ModelD
           {[ "ip_sum_mismatch" := VBool true; "missing_periods" := VBool true ]}
           95 "Critical (85–99%)").
  vm_compute. reflexivity.
Defined.

(** X6: whenever one of the combination bumps applies (AP line 55, Bank
    lines 103 and 107, Tax lines 162-168, Lease lines 228-231) the returned
    score is at least 85 and the level is Critical. *)
Theorem combo_bump_critical stf m (row : gmap string value) s b :
  combo_bump m row = true →
  score_row stf m row = Ok (s, b) →
  85 <= s ∧ b = "Critical (85–99%)".
Proof.
  intros Hbump Hscore.
  assert (85 <= s) as Hs.
  { apply score_row_inv in Hscore. apply Z.leb_le.
    destruct m; cbn [combo_bump] in Hbump.
    - pose proof (AP_score_facts_b (AP.read row)) as Hb.
      rewrite Hscore, Hbump in Hb. simpl in Hb.
      by destruct (85 <=? s); [|rewrite andb_false_r in Hb].
    - pose proof (Bank_score_facts_b (Bank.read row)) as Hb.
      rewrite Hscore, Hbump in Hb. simpl in Hb.
      by destruct (85 <=? s); [|rewrite andb_false_r in Hb].
    - destruct Hscore as (t & _ & Hscore).
      pose proof (Tax_score_facts_b (Tax.read row) (float_gt t 5)) as Hb.
      rewrite Hscore, Hbump in Hb. simpl in Hb.
      by destruct (85 <=? s); [|rewrite andb_false_r in Hb].
    - pose proof (Lease_score_facts_b (Lease.read row)) as Hb.
      rewrite Hscore, Hbump in Hb. simpl in Hb. apply andb_prop in Hb as [Hb _].
      by destruct (85 <=? s); [|rewrite andb_false_r in Hb]. }
  split; [done|]. rewrite (score_row_band _ _ _ _ _ Hscore).
  apply classify_risk_critical. apply (Qlt_le_trans _ (inject_Z 85)); [done|].
  by rewrite <- Zle_Qle.
Qed.

Lemma combo_bump_critical_witness : 85 <= 85 ∧ "Critical (85–99%)" = "Critical (85–99%)".
Proof.
  apply (combo_bump_critical no_numeric_text ModelB
           {[ "no_matching_invoice" := VBool true;
              "unusual_vendor_payment" := VBool true ]} 85 "Critical (85–99%)").
  - reflexivity.
  - vm_compute. reflexivity.
Defined.

(** X5: in [score_lease_row] the floor step never changes the score: with
    three or more flags true the sum of the rules has already reached 90. *)
Theorem lease_floor_no_op stf (row : gmap string value) :
  score_after_floor stf ModelD row = score_before_floor stf ModelD row
  ∧ (3 <= flag_count ModelD row → 90 <= Lease.additive (Lease.read row)).
Proof.
  pose proof (Lease_score_facts_b (Lease.read row)) as Hb.
  apply andb_prop in Hb as [_ Hb]. apply Z.eqb_eq in Hb.
  cbn [score_after_floor score_before_floor flag_count].
  split; [by rewrite Hb|].
  intros Hcount. unfold Lease.floored in Hb. apply Z.geb_le in Hcount.
  rewrite Hcount in Hb. lia.
Qed.

(** Rows whose flag fields agree in truth value read the same flags. *)
Lemma read_truth_agree m (row1 row2 : gmap string value) :
  (∀ k, In k (flag_fields m) →
     py_bool (row_get row1 k (VBool false)) = py_bool (row_get row2 k (VBool false))) →
  match m with
  | ModelA => AP.read row1 = AP.read row2
  | ModelB => Bank.read row1 = Bank.read row2
  | ModelC => Tax.read row1 = Tax.read row2
  | ModelD => Lease.read row1 = Lease.read row2
  end.
Proof.
  intros H.
  destruct m; cbn [flag_fields] in H;
    unfold AP.read, Bank.read, Tax.read, Lease.read;
    f_equal; apply H; simpl; tauto.
Qed.

(** X4: the scoring functions read a flag field only through its truth
    value, and [score_tax_row] reads [tax_diff_abs] only through the test
    [tax_diff_abs > 5]: two rows that agree on these get the same result. *)
Theorem score_row_truth_values stf m (row1 row2 : gmap string value) :
  (∀ k, In k (flag_fields m) →
     py_bool (row_get row1 k (VBool false)) = py_bool (row_get row2 k (VBool false))) →
  (m = ModelC → ∃ t1 t2,
     read_tax_diff_abs stf row1 = Ok t1 ∧ read_tax_diff_abs stf row2 = Ok t2
     ∧ float_gt t1 5 = float_gt t2 5) →
  score_row stf m row1 = score_row stf m row2.
Proof.
  intros Hflags Hdiff. apply read_truth_agree in Hflags.
  destruct m; cbn [score_row].
  - unfold score_ap_row. by rewrite Hflags.
  - unfold score_bank_row. by rewrite Hflags.
  - destruct (Hdiff eq_refl) as (t1 & t2 & H1 & H2 & Hgt).
    rewrite (score_tax_row_ok _ _ _ H1), (score_tax_row_ok _ _ _ H2), Hflags.
    by rewrite (Tax_score_bump _ t1), (Tax_score_bump _ t2), Hgt.
  - unfold score_lease_row. by rewrite Hflags.
Qed.

Lemma score_row_truth_values_witness :
  score_row no_numeric_text ModelC
    {[ "rate_mismatch" := VInt 1; "tax_diff_abs" := VInt 6 ]}
  = score_row no_numeric_text ModelC
      {[ "rate_mismatch" := VStr "yes"; "tax_diff_abs" := VFloat PInf;
         "tax_missing" := VNone ]}.
Proof.
  apply (score_row_truth_values no_numeric_text ModelC).
  - intros k Hk. each_field Hk; vm_compute; reflexivity.
  - intros _. exists (Fin (inject_Z 6)), PInf. repeat split; vm_compute; reflexivity.
Defined.

(** * Properties of the detector steps *)

Lemma Qgt_bool_true (a b : Q) : Qgt_bool a b = true ↔ (b < a)%Q.
Proof.
  unfold Qgt_bool. rewrite negb_true_iff. apply Qle_bool_false.
Qed.

Lemma num_gt_not_eq n c : num_gt n c = true → num_eq n c = false.
Proof.
  destruct n as [z|[q| | |]]; simpl; try done.
  - intros H. apply Z.ltb_lt in H. apply Z.eqb_neq. lia.
  - intros H. apply Qgt_bool_true in H.
    destruct (Qeq_bool q (inject_Z c)) eqn:E; [|done].
    apply Qeq_bool_iff in E. rewrite E in H. by apply Qlt_irrefl in H.
Qed.

(** X7: lines 140-141 of [validate_tax] never set both [tax_missing] and
    [tax_on_nontaxable_item] on one invoice, whatever the two amounts are;
    each flag excludes the other. *)
Theorem tax_missing_excludes_nontaxable (Taxable_Amount Calculated_Tax : number) :
  tax_missing_of Taxable_Amount Calculated_Tax
  && tax_on_nontaxable_item_of Taxable_Amount Calculated_Tax = false
  ∧ (tax_missing_of Taxable_Amount Calculated_Tax = true →
     tax_on_nontaxable_item_of Taxable_Amount Calculated_Tax = false)
  ∧ (tax_on_nontaxable_item_of Taxable_Amount Calculated_Tax = true →
     tax_missing_of Taxable_Amount Calculated_Tax = false).
Proof.
  unfold tax_missing_of, tax_on_nontaxable_item_of.
  destruct (num_gt Taxable_Amount 0) eqn:Egt.
  - rewrite (num_gt_not_eq _ _ Egt). simpl. repeat split; try done.
    by rewrite andb_false_r.
  - simpl. repeat split; done.
Qed.

Lemma wrap64_bounds z : - 2 ^ 63 <= wrap64 z < 2 ^ 63.
Proof.
  unfold wrap64. pose proof (Z.mod_pos_bound (z + 2 ^ 63) (2 ^ 64)). lia.
Qed.

(** X8: a tax row whose [tax_diff_abs] was computed by line 142 of
    [validate_tax] from two numeric amounts is always scored:
    the [float] conversion of line 139 of [score_tax_row] cannot raise on
    it, whatever the amounts and however the subtraction rounds. *)
Theorem tax_diff_abs_of_is_scored float_sub stf (row : gmap string value)
    (Calculated_Tax Recalc_Tax : number) :
  row !! "tax_diff_abs"
  = Some (number_value (tax_diff_abs_of float_sub Calculated_Tax Recalc_Tax)) →
  ∃ t s b, read_tax_diff_abs stf row = Ok t
    ∧ score_tax_row stf row = Ok (s, b) ∧ 5 <= s <= 100.
Proof.
  intros Hcol.
  assert (∃ t, read_tax_diff_abs stf row = Ok t) as [t Ht].
  { unfold read_tax_diff_abs, row_get. rewrite Hcol. simpl.
    destruct (tax_diff_abs_of float_sub Calculated_Tax Recalc_Tax) as [z|f] eqn:E;
      simpl; [|by eexists].
    assert ((Z.abs z <? float_int_limit) = true) as ->; [|by eexists].
    apply Z.ltb_lt. unfold tax_diff_abs_of, num_abs in E.
    destruct (num_sub float_sub Calculated_Tax Recalc_Tax) as [z0|f0]; [|done].
    injection E as <-. pose proof (wrap64_bounds (Z.abs z0)) as Hw.
    assert (2 ^ 63 < float_int_limit) by (by vm_compute).
    lia. }
  exists t, (Tax.score (Tax.read row) t).1, (Tax.score (Tax.read row) t).2.
  split; [done|]. rewrite (score_tax_row_ok _ _ _ Ht).
  split; [by destruct (Tax.score _ _)|]. apply Tax_score_bounds.
Qed.

Lemma tax_diff_abs_of_is_scored_witness :
  ∃ t s b,
    read_tax_diff_abs no_numeric_text
      {[ "tax_missing" := VBool true;
         "tax_diff_abs" :=
           number_value (tax_diff_abs_of exact_sub (NInt 0) (NFloat (Fin (25 # 2)))) ]}
    = Ok t
    ∧ score_tax_row no_numeric_text
        {[ "tax_missing" := VBool true;
           "tax_diff_abs" :=
             number_value (tax_diff_abs_of exact_sub (NInt 0) (NFloat (Fin (25 # 2)))) ]}
      = Ok (s, b)
    ∧ 5 <= s <= 100.
Proof.
  apply (tax_diff_abs_of_is_scored exact_sub no_numeric_text _
           (NInt 0) (NFloat (Fin (25 # 2)))).
  vm_compute. reflexivity.
Defined.





(** ** Frames through the scoring step *)

Lemma with_risk_score score_row (row : gmap string value) :
  with_risk score_row row !! "risk_score" = Some (VInt (score_row row).1).
Proof.
  unfold with_risk. destruct (score_row row) as [s l]. simpl.
  rewrite lookup_insert_ne by done. apply lookup_insert_eq.
Qed.

Lemma with_risk_level score_row (row : gmap string value) :
  with_risk score_row row !! "risk_level" = Some (VStr (score_row row).2).
Proof.
  unfold with_risk. destruct (score_row row) as [s l]. simpl.
  apply lookup_insert_eq.
Qed.

(** A scoring function that does not read the two risk columns gives a
    scored row the score it already carries. *)
Lemma with_risk_idem score_row (row : gmap string value) :
  (∀ r v, score_row (<["risk_score" := v]> r) = score_row r) →
  (∀ r v, score_row (<["risk_level" := v]> r) = score_row r) →
  score_row (with_risk score_row row) = score_row row
  ∧ with_risk score_row (with_risk score_row row) = with_risk score_row row.
Proof.
  intros Hs Hl.
  assert (score_row (with_risk score_row row) = score_row row) as Hsame.
  { unfold with_risk. destruct (score_row row) as [s l] eqn:E.
    by rewrite Hl, Hs. }
  split; [done|]. unfold with_risk at 1. rewrite Hsame.
  unfold with_risk. destruct (score_row row) as [s l].
  apply map_eq. intros k.
  destruct (decide (k = "risk_level")) as [->|Hkl]; [by rewrite !lookup_insert_eq|].
  rewrite !(lookup_insert_ne _ "risk_level") by done.
  destruct (decide (k = "risk_score")) as [->|Hks]; [by rewrite !lookup_insert_eq|].
  repeat (rewrite lookup_insert_ne; [|done]). done.
Qed.

Lemma score_bank_row_insert_other (row : gmap string value) k v :
  ¬ In k Bank.fields → score_bank_row (<[k := v]> row) = score_bank_row row.
Proof. intros H. unfold score_bank_row. by rewrite Bank_read_insert_other. Qed.

Lemma score_lease_row_insert_other (row : gmap string value) k v :
  ¬ In k Lease.fields → score_lease_row (<[k := v]> row) = score_lease_row row.
Proof. intros H. unfold score_lease_row. by rewrite Lease_read_insert_other. Qed.

Ltac not_a_field :=
  let H := fresh in
  simpl; intros H; repeat (destruct H as [H|H]; [discriminate H|]); exact H.

Lemma apply_scores_idem score_row (df out : list (gmap string value)) :
  (∀ r v, score_row (<["risk_score" := v]> r) = score_row r) →
  (∀ r v, score_row (<["risk_level" := v]> r) = score_row r) →
  apply_scores score_row df = Ok out → apply_scores score_row out = Ok out.
Proof.
  intros Hs Hl Hok. destruct df as [|r df]; [discriminate Hok|].
  assert (out = with_risk score_row <$> r :: df) as -> by (by injection Hok).
  rewrite fmap_cons. unfold apply_scores. f_equal.
  rewrite <- fmap_cons, <- list_fmap_compose.
  apply list_fmap_ext. intros i x _. simpl.
  by apply with_risk_idem.
Qed.

Lemma set_column_id col v (df : list (gmap string value)) :
  (∀ row, row ∈ df → row !! col = Some v) → set_column col v df = df.
Proof.
  intros H. unfold set_column. rewrite <- (list_fmap_id df) at 2.
  apply list_fmap_ext. intros i row Hi. simpl. apply insert_id, H.
  by eapply list_elem_of_lookup_2.
Qed.

(** The rows [validate_bank] and [validate_leases] return, from the rows
    they are given. *)
Lemma validate_bank_row (bank out : list (gmap string value)) i row :
  validate_bank bank = Ok out → out !! i = Some row →
  ∃ row0, bank !! i = Some row0
    ∧ row = with_risk score_bank_row
              (<["invoice_marked_paid_but_no_bank_txn" := VBool false]> row0).
Proof.
  unfold validate_bank, apply_scores, set_column. intros Hok Hi.
  destruct bank as [|r bank]; [discriminate Hok|].
  rewrite fmap_cons in Hok.
  assert (out = with_risk score_bank_row
                  <$> ((λ row, <["invoice_marked_paid_but_no_bank_txn" := VBool false]> row)
                         <$> r :: bank)) as -> by (by injection Hok).
  rewrite !list_lookup_fmap in Hi.
  destruct ((r :: bank) !! i) as [row0|]; [|discriminate Hi].
  exists row0. split; [done|]. simpl in Hi. congruence.
Qed.

Lemma validate_leases_row (leases out : list (gmap string value)) i row :
  validate_leases leases = Ok out → out !! i = Some row →
  ∃ row0, leases !! i = Some row0
    ∧ row = with_risk score_lease_row
              (<["classification_flag" := VBool false]>
                 (<["incorrect_opening_entry" := VBool false]> row0)).
Proof.
  unfold validate_leases, apply_scores, set_column. intros Hok Hi.
  destruct leases as [|r leases]; [discriminate Hok|].
  rewrite !fmap_cons in Hok.
  assert (out = with_risk score_lease_row
                  <$> ((λ row, <["classification_flag" := VBool false]> row)
                         <$> ((λ row, <["incorrect_opening_entry" := VBool false]> row)
                                <$> r :: leases))) as -> by (by injection Hok).
  rewrite !list_lookup_fmap in Hi.
  destruct ((r :: leases) !! i) as [row0|]; [|discriminate Hi].
  exists row0. split; [done|]. simpl in Hi. congruence.
Qed.

Lemma validate_bank_reserved (bank out : list (gmap string value)) row :
  validate_bank bank = Ok out → row ∈ out →
  row !! "invoice_marked_paid_but_no_bank_txn" = Some (VBool false).
Proof.
  intros Hok Hrow. apply list_elem_of_lookup in Hrow as [i Hi].
  destruct (validate_bank_row _ _ _ _ Hok Hi) as (row0 & _ & ->).
  rewrite with_risk_lookup by done. apply lookup_insert_eq.
Qed.

Lemma validate_leases_reserved (leases out : list (gmap string value)) row :
  validate_leases leases = Ok out → row ∈ out →
  row !! "incorrect_opening_entry" = Some (VBool false)
  ∧ row !! "classification_flag" = Some (VBool false).
Proof.
  intros Hok Hrow. apply list_elem_of_lookup in Hrow as [i Hi].
  destruct (validate_leases_row _ _ _ _ Hok Hi) as (row0 & _ & ->).
  rewrite !with_risk_lookup by done. split.
  - rewrite lookup_insert_ne by done. apply lookup_insert_eq.
  - apply lookup_insert_eq.
Qed.

(** X11: running the scoring steps of [validate_bank] or of
    [validate_leases] on their own output gives that output again: the
    scores and levels stored in the rows are those the rows' own flags
    yield. *)
Theorem validate_rescoring_idempotent (bank leases bank' leases' : list (gmap string value)) :
  validate_bank bank = Ok bank' →
  validate_leases leases = Ok leases' →
  validate_bank bank' = Ok bank' ∧ validate_leases leases' = Ok leases'.
Proof.
  intros Hbank Hleases. split.
  - unfold validate_bank. rewrite set_column_id.
    + unfold validate_bank in Hbank.
      eapply apply_scores_idem; [| |exact Hbank]; intros r v;
        apply score_bank_row_insert_other; not_a_field.
    + intros row Hrow. by eapply validate_bank_reserved.
  - unfold validate_leases. rewrite !set_column_id.
    + unfold validate_leases in Hleases.
      eapply apply_scores_idem; [| |exact Hleases]; intros r v;
        apply score_lease_row_insert_other; not_a_field.
    + intros row Hrow. by eapply validate_leases_reserved.
    + intros row Hrow. rewrite set_column_id in Hrow.
      * by eapply validate_leases_reserved.
      * intros row' Hrow'. by eapply validate_leases_reserved.
Qed.

Lemma validate_rescoring_idempotent_witness :
  validate_bank
    [with_risk score_bank_row
       (<["invoice_marked_paid_but_no_bank_txn" := VBool false]>
          {[ "duplicate_payment" := VBool true; "risk_score" := VInt 0 ]})]
  = Ok [with_risk score_bank_row
          (<["invoice_marked_paid_but_no_bank_txn" := VBool false]>
             {[ "duplicate_payment" := VBool true; "risk_score" := VInt 0 ]})]
  ∧ validate_leases
      [with_risk score_lease_row
         (<["classification_flag" := VBool false]>
            (<["incorrect_opening_entry" := VBool false]>
               {[ "missing_periods" := VBool true ]}))]
    = Ok [with_risk score_lease_row
            (<["classification_flag" := VBool false]>
               (<["incorrect_opening_entry" := VBool false]>
                  {[ "missing_periods" := VBool true ]}))].
Proof.
  apply (validate_rescoring_idempotent
           [ {[ "duplicate_payment" := VBool true; "risk_score" := VInt 0 ]} ]
           [ {[ "missing_periods" := VBool true ]} ]);
    reflexivity.
Defined.

Lemma apply_scores_length score_row (df out : list (gmap string value)) :
  apply_scores score_row df = Ok out → df ≠ [] ∧ length out = length df.
Proof.
  intros Hok. destruct df as [|r df]; [discriminate Hok|]. split; [done|].
  assert (out = with_risk score_row <$> r :: df) as -> by (by injection Hok).
  by rewrite length_fmap.
Qed.

Lemma validate_bank_length (bank out : list (gmap string value)) :
  validate_bank bank = Ok out → bank ≠ [] ∧ length out = length bank.
Proof.
  unfold validate_bank, set_column. intros Hok.
  apply apply_scores_length in Hok as [Hne Hlen].
  rewrite length_fmap in Hlen. split; [by destruct bank|done].
Qed.

Lemma validate_leases_length (leases out : list (gmap string value)) :
  validate_leases leases = Ok out → leases ≠ [] ∧ length out = length leases.
Proof.
  unfold validate_leases, set_column. intros Hok.
  apply apply_scores_length in Hok as [Hne Hlen].
  rewrite !length_fmap in Hlen. split; [by destruct leases|done].
Qed.

(** X12: on a frame without rows [validate_bank] and [validate_leases]
    raise [ValueError]; whenever they return, they return one row per input
    row, in the input order, and each returned row differs from its input
    row in nothing but the reserved flags and the two risk columns. *)
Theorem validate_frame_effect (bank leases bank' leases' : list (gmap string value)) :
  validate_bank bank = Ok bank' →
  validate_leases leases = Ok leases' →
  validate_bank [] = Raise ValueError ∧ validate_leases [] = Raise ValueError
  ∧ bank ≠ [] ∧ leases ≠ []
  ∧ length bank' = length bank ∧ length leases' = length leases
  ∧ (∀ i row0, bank !! i = Some row0 →
       ∃ b, bank' !! i = Some b
         ∧ ∀ k, k ≠ "invoice_marked_paid_but_no_bank_txn" →
             k ≠ "risk_score" → k ≠ "risk_level" → b !! k = row0 !! k)
  ∧ (∀ i row0, leases !! i = Some row0 →
       ∃ l, leases' !! i = Some l
         ∧ ∀ k, k ≠ "incorrect_opening_entry" → k ≠ "classification_flag" →
             k ≠ "risk_score" → k ≠ "risk_level" → l !! k = row0 !! k).
Proof.
  intros Hbank Hleases.
  destruct (validate_bank_length _ _ Hbank) as [Hnb Hlb].
  destruct (validate_leases_length _ _ Hleases) as [Hnl Hll].
  do 6 (split; [done|]). split.
  - intros i row0 Hi.
    destruct (bank' !! i) as [b|] eqn:Hb;
      [|apply lookup_ge_None in Hb; apply lookup_lt_Some in Hi; lia].
    exists b. split; [done|].
    destruct (validate_bank_row _ _ _ _ Hbank Hb) as (rb & Hrb & ->).
    assert (rb = row0) as -> by congruence.
    intros k H1 H2 H3. rewrite with_risk_lookup by done.
    by rewrite lookup_insert_ne.
  - intros i row0 Hi.
    destruct (leases' !! i) as [l|] eqn:Hl;
      [|apply lookup_ge_None in Hl; apply lookup_lt_Some in Hi; lia].
    exists l. split; [done|].
    destruct (validate_leases_row _ _ _ _ Hleases Hl) as (rl & Hrl & ->).
    assert (rl = row0) as -> by congruence.
    intros k H1 H2 H3 H4. rewrite with_risk_lookup by done.
    by rewrite !lookup_insert_ne.
Qed.

Lemma validate_frame_effect_witness :
  validate_bank [] = Raise ValueError ∧ validate_leases [] = Raise ValueError
  ∧ [ ({[ "Vendor" := VStr "Acme" ]} : gmap string value) ] ≠ []
  ∧ [ ({[ "Lease_ID" := VStr "L-1" ]} : gmap string value) ] ≠ []
  ∧ length [with_risk score_bank_row
              (<["invoice_marked_paid_but_no_bank_txn" := VBool false]>
                 {[ "Vendor" := VStr "Acme" ]})] = 1%nat
  ∧ length [with_risk score_lease_row
              (<["classification_flag" := VBool false]>
                 (<["incorrect_opening_entry" := VBool false]>
                    {[ "Lease_ID" := VStr "L-1" ]}))] = 1%nat
  ∧ (∀ i row0, [ ({[ "Vendor" := VStr "Acme" ]} : gmap string value) ] !! i = Some row0 →
       ∃ b, [with_risk score_bank_row
               (<["invoice_marked_paid_but_no_bank_txn" := VBool false]>
                  {[ "Vendor" := VStr "Acme" ]})] !! i = Some b
         ∧ ∀ k, k ≠ "invoice_marked_paid_but_no_bank_txn" →
             k ≠ "risk_score" → k ≠ "risk_level" → b !! k = row0 !! k)
  ∧ (∀ i row0, [ ({[ "Lease_ID" := VStr "L-1" ]} : gmap string value) ] !! i = Some row0 →
       ∃ l, [with_risk score_lease_row
               (<["classification_flag" := VBool false]>
                  (<["incorrect_opening_entry" := VBool false]>
                     {[ "Lease_ID" := VStr "L-1" ]}))] !! i = Some l
         ∧ ∀ k, k ≠ "incorrect_opening_entry" → k ≠ "classification_flag" →
             k ≠ "risk_score" → k ≠ "risk_level" → l !! k = row0 !! k).
Proof.
  apply (validate_frame_effect
           [ {[ "Vendor" := VStr "Acme" ]} ] [ {[ "Lease_ID" := VStr "L-1" ]} ]);
    reflexivity.
Defined.

(** ** The dataset-wide lease flags *)

Lemma inject_Z_le (s c : Z) : (inject_Z s <= inject_Z c)%Q → s <= c.
Proof. by rewrite <- Zle_Qle. Qed.

Lemma Lease_tie_out_b f :
  (5 + (if Lease.liab_diff_flag f then 20 else 0)
     + (if Lease.rou_diff_flag f then 20 else 0) <=? (Lease.score f).1) = true.
Proof. flag_cases6 f; reflexivity. Qed.

(** X9: the two tie-out flags of lines 176-177 are dataset-wide: every row
    [validate_leases] returns carries the same pair, and its score is at
    least 5 plus 20 for each flag that is set.  So when the liability
    tie-out fails no lease line is Low, and when both fail every lease line
    is High or Critical. *)
Theorem lease_tie_out_rows (liability_diff rou_diff : bool)
    (leases out : list (gmap string value)) row :
  validate_leases_tie_out liability_diff rou_diff leases = Ok out →
  row ∈ out →
  row !! "schedule_to_GL_liability_diff_flag" = Some (VBool liability_diff)
  ∧ row !! "schedule_to_GL_ROU_diff_flag" = Some (VBool rou_diff)
  ∧ ∃ s level,
      row !! "risk_score" = Some (VInt s)
      ∧ row !! "risk_level" = Some (VStr level)
      ∧ 5 + (if liability_diff then 20 else 0) + (if rou_diff then 20 else 0) <= s
      ∧ (liability_diff = true → level ≠ "Low (5–15%)")
      ∧ (liability_diff = true → rou_diff = true →
         level = "High (50–80%)" ∨ level = "Critical (85–99%)").
Proof.
  unfold validate_leases_tie_out. intros Hok Hrow.
  apply list_elem_of_lookup in Hrow as [i Hi].
  destruct (validate_leases_row _ _ _ _ Hok Hi) as (row2 & Hi2 & ->).
  unfold set_column in Hi2. rewrite !list_lookup_fmap in Hi2.
  destruct (leases !! i) as [row0|]; [|discriminate Hi2].
  simpl in Hi2. injection Hi2 as <-.
  set (scored := <["classification_flag" := VBool false]> _).
  split; [|split].
  - rewrite with_risk_lookup by done. subst scored.
    by rewrite !lookup_insert_ne, lookup_insert_eq by done.
  - rewrite with_risk_lookup by done. subst scored.
    by rewrite !lookup_insert_ne, lookup_insert_eq by done.
  - exists (score_lease_row scored).1, (score_lease_row scored).2.
    split; [apply with_risk_score|]. split; [apply with_risk_level|].
    assert (Lease.liab_diff_flag (Lease.read scored) = liability_diff) as Hl.
    { subst scored. simpl.
      by rewrite !(row_get_insert_ne _ _ "schedule_to_GL_liability_diff_flag"),
        row_get_insert_eq by done. }
    assert (Lease.rou_diff_flag (Lease.read scored) = rou_diff) as Hr.
    { subst scored. simpl.
      by rewrite !(row_get_insert_ne _ _ "schedule_to_GL_ROU_diff_flag"),
        row_get_insert_eq by done. }
    pose proof (Lease_tie_out_b (Lease.read scored)) as Hb.
    rewrite Hl, Hr in Hb. apply Z.leb_le in Hb.
    change (score_lease_row scored).2
      with (classify_risk (inject_Z (score_lease_row scored).1)).
    unfold score_lease_row in *.
    set (s := (Lease.score (Lease.read scored)).1) in *.
    split; [done|]. split.
    + intros ->. rewrite classify_risk_low. intros Hle.
      apply (inject_Z_le s 20) in Hle. destruct rou_diff; lia.
    + intros -> ->. pose proof (classify_risk_levels (inject_Z s)) as Hin.
      simpl in Hin. destruct Hin as [H|[H|[H|[H|[]]]]]; [| |by left|by right].
      * symmetry in H. apply classify_risk_low in H.
        apply (inject_Z_le s 20) in H. lia.
      * symmetry in H. apply classify_risk_medium in H as [_ H].
        apply (inject_Z_le s 40) in H. lia.
Qed.

Lemma lease_tie_out_rows_witness :
  ∃ s level,
    with_risk score_lease_row
      (<["classification_flag" := VBool false]>
         (<["incorrect_opening_entry" := VBool false]>
            (<["schedule_to_GL_ROU_diff_flag" := VBool true]>
               (<["schedule_to_GL_liability_diff_flag" := VBool true]>
                  {[ "Lease_ID" := VStr "L-01" ]})))) !! "risk_score"
    = Some (VInt s)
    ∧ with_risk score_lease_row
        (<["classification_flag" := VBool false]>
           (<["incorrect_opening_entry" := VBool false]>
              (<["schedule_to_GL_ROU_diff_flag" := VBool true]>
                 (<["schedule_to_GL_liability_diff_flag" := VBool true]>
                    {[ "Lease_ID" := VStr "L-01" ]})))) !! "risk_level"
      = Some (VStr level)
    ∧ 5 + 20 + 20 <= s
    ∧ (true = true → level ≠ "Low (5–15%)")
    ∧ (true = true → true = true →
       level = "High (50–80%)" ∨ level = "Critical (85–99%)").
Proof.
  apply (lease_tie_out_rows true true [ {[ "Lease_ID" := VStr "L-01" ]} ]
           [with_risk score_lease_row
              (<["classification_flag" := VBool false]>
                 (<["incorrect_opening_entry" := VBool false]>
                    (<["schedule_to_GL_ROU_diff_flag" := VBool true]>
                       (<["schedule_to_GL_liability_diff_flag" := VBool true]>
                          {[ "Lease_ID" := VStr "L-01" ]}))))]).
  - reflexivity.
  - apply list_elem_of_singleton. reflexivity.
Defined.

(** * Properties of the journal entries *)

Lemma outcome_bind_done {A B} (m : outcome A) (k : A → outcome B) b :
  (m ≫= k) = Done b → ∃ a, m = Done a ∧ k a = Done b.
Proof. destruct m as [a|f]; simpl; [by exists a|done]. Qed.

Ltac bind_done H :=
  let a := fresh "a" in
  let Ha := fresh "H" a in
  apply outcome_bind_done in H as (a & Ha & H).

Lemma risk_at_least_mono t1 t2 (row : gmap string value) keep1 :
  t1 <= t2 → risk_at_least t1 row = Done keep1 →
  ∃ keep2, risk_at_least t2 row = Done keep2 ∧ (keep2 = true → keep1 = true).
Proof.
  intros Ht. unfold risk_at_least, row_item.
  destruct (row !! "risk_score") as [[|b|z|[q| | |]|s]|]; simpl; try done;
    intros [= <-]; eexists; (split; [reflexivity|]); try done.
  - intros H. apply Z.leb_le in H. apply Z.leb_le. lia.
  - intros H. apply Z.leb_le in H. apply Z.leb_le. lia.
  - intros H. apply Qle_bool_iff in H. apply Qle_bool_iff.
    apply (Qle_trans _ (inject_Z t2)); [|done]. by rewrite <- Zle_Qle.
Qed.

Lemma high_risk_mono t1 t2 (df h1 : list (gmap string value)) :
  t1 <= t2 → high_risk t1 df = Done h1 →
  ∃ h2, high_risk t2 df = Done h2 ∧ sublist h2 h1.
Proof.
  intros Ht. revert h1. induction df as [|row df IH]; intros h1 H; simpl in *.
  - exists []. by injection H as <-.
  - bind_done H. bind_done H. injection H as <-.
    destruct (risk_at_least_mono _ _ _ _ Ht Ha) as (keep2 & -> & Hkeep).
    destruct (IH _ Ha0) as (h2 & -> & Hsub). simpl.
    eexists. split; [reflexivity|].
    destruct keep2.
    + rewrite Hkeep by done. by apply sublist_skip.
    + destruct a; [by apply sublist_cons|done].
Qed.

Lemma high_risk_sublist t (df h : list (gmap string value)) :
  high_risk t df = Done h → sublist h df.
Proof.
  revert h. induction df as [|row df IH]; intros h H; simpl in *.
  - by injection H as <-.
  - bind_done H. bind_done H. injection H as <-.
    destruct a; [apply sublist_skip|apply sublist_cons]; by apply IH.
Qed.

Lemma append_entries_sublist entry (rows rows' : list (gmap string value)) l :
  sublist rows' rows → append_entries entry rows = Done l →
  ∃ l', append_entries entry rows' = Done l' ∧ sublist l' l.
Proof.
  intros Hsub. revert l. induction Hsub as [|row r1 r2 Hsub IH|row r1 r2 Hsub IH];
    intros l H; simpl in *.
  - exists []. by injection H as <-.
  - bind_done H. bind_done H. injection H as <-.
    destruct (IH _ Ha0) as (l' & -> & Hl'). rewrite Ha. simpl.
    eexists. split; [reflexivity|]. destruct a; [by apply sublist_skip|done].
  - bind_done H. bind_done H. injection H as <-.
    destruct (IH _ Ha0) as (l' & -> & Hl'). exists l'. split; [done|].
    destruct a; [by apply sublist_cons|done].
Qed.

Lemma append_entries_Forall entry (P : journal_entry → Prop)
    (rows : list (gmap string value)) l :
  (∀ row e, entry row = Done (Some e) → P e) →
  append_entries entry rows = Done l →
  Forall P l ∧ (length l <= length rows)%nat.
Proof.
  intros HP. revert l. induction rows as [|row rows IH]; intros l H; simpl in *.
  - injection H as <-. split; [constructor|done].
  - bind_done H. bind_done H. injection H as <-.
    destruct (IH _ Ha0) as [HF Hlen]. destruct a as [e|].
    + split; [constructor; eauto|simpl; lia].
    + split; [done|lia].
Qed.

Lemma append_entries_always entry (rows : list (gmap string value)) l :
  (∀ row o, entry row = Done o → is_Some o) →
  append_entries entry rows = Done l → length l = length rows.
Proof.
  intros Hsome. revert l. induction rows as [|row rows IH]; intros l H; simpl in *.
  - by injection H as <-.
  - bind_done H. bind_done H. injection H as <-.
    destruct (Hsome _ _ Ha) as [e ->]. simpl. f_equal. by apply IH.
Qed.

Section JournalEntryFacts.

Variable py_str : value → string.
Variable round2 : pyfloat → pyfloat.
Variable float_sub : pyfloat → pyfloat → pyfloat.
Variable float_mul : pyfloat → pyfloat → pyfloat.

Lemma ap_entry_accounts (row : gmap string value) e :
  ap_entry py_str round2 float_sub row = Done (Some e) →
  Source e = "AP"
  ∧ ((Debit_Account e = "Project Expense" ∧ Credit_Account e = "Accounts Payable")
     ∨ (Debit_Account e = "Accounts Payable" ∧ Credit_Account e = "Project Expense")).
Proof.
  unfold ap_entry. intros H.
  destruct (py_bool (row_get row "missing_in_GL" VNone)).
  - repeat bind_done H. injection H as <-. simpl. tauto.
  - destruct (py_bool (row_get row "amount_mismatch" VNone)); [|discriminate H].
    do 4 bind_done H. destruct a2; repeat bind_done H; injection H as <-;
      simpl; tauto.
Qed.

Lemma tax_entry_accounts (row : gmap string value) e :
  tax_entry py_str round2 float_sub row = Done (Some e) →
  Source e = "Tax" ∧ Debit_Account e = "Sales Tax Expense"
  ∧ Credit_Account e = "Sales & Use Tax Payable".
Proof.
  unfold tax_entry. intros H. do 5 bind_done H.
  destruct a3; [|discriminate H]. repeat bind_done H. injection H as <-. done.
Qed.

Lemma lease_entry_accounts (row : gmap string value) o :
  lease_entry py_str round2 float_mul row = Done o →
  ∃ e, o = Some e ∧ Source e = "Lease" ∧ Debit_Account e = "Lease Liability"
    ∧ Credit_Account e = "Prior Period Adjustment".
Proof.
  unfold lease_entry. intros H. repeat bind_done H. injection H as <-.
  by eexists.
Qed.

Lemma ap_entry_pair (row : gmap string value) e :
  ap_entry py_str round2 float_sub row = Done (Some e) →
  Source e = "AP" ∧ entry_accounts e ∧ Debit_Account e ≠ Credit_Account e.
Proof.
  intros He. destruct (ap_entry_accounts _ _ He) as (Hs & [[Hd Hc]|[Hd Hc]]);
    unfold entry_accounts; rewrite Hs, Hd, Hc; split; try done; split;
    try done; tauto.
Qed.

Lemma tax_entry_pair (row : gmap string value) e :
  tax_entry py_str round2 float_sub row = Done (Some e) →
  Source e = "Tax" ∧ entry_accounts e ∧ Debit_Account e ≠ Credit_Account e.
Proof.
  intros He. destruct (tax_entry_accounts _ _ He) as (Hs & Hd & Hc).
  unfold entry_accounts. rewrite Hs, Hd, Hc. split; [done|]. split; [tauto|done].
Qed.

Lemma lease_entry_pair (row : gmap string value) e :
  lease_entry py_str round2 float_mul row = Done (Some e) →
  Source e = "Lease" ∧ entry_accounts e ∧ Debit_Account e ≠ Credit_Account e.
Proof.
  intros He. destruct (lease_entry_accounts _ _ He) as (e' & [= <-] & Hs & Hd & Hc).
  unfold entry_accounts. rewrite Hs, Hd, Hc. split; [done|]. split; [tauto|done].
Qed.

End JournalEntryFacts.

(** X13: when the journal-entry code returns, [je_rows] is the AP entries,
    then the tax entries, then the lease entries; the AP and the tax rows at
    or above the threshold give at most one entry each and the lease rows
    exactly one each; every entry debits and credits one of the fixed pairs
    of its source, two different accounts. *)
Theorem je_rows_shape py_str round2 float_sub float_mul (risk_threshold : Z)
    (ap_df tax_df lease_df : list (gmap string value)) l :
  je_rows py_str round2 float_sub float_mul risk_threshold ap_df tax_df lease_df
  = Done l →
  ∃ high_ap high_tax high_leases la lt ll,
    high_risk risk_threshold ap_df = Done high_ap
    ∧ high_risk risk_threshold tax_df = Done high_tax
    ∧ high_risk risk_threshold lease_df = Done high_leases
    ∧ l = la ++ lt ++ ll
    ∧ Forall (λ e, Source e = "AP") la
    ∧ Forall (λ e, Source e = "Tax") lt
    ∧ Forall (λ e, Source e = "Lease") ll
    ∧ (length la <= length high_ap)%nat
    ∧ (length lt <= length high_tax)%nat
    ∧ length ll = length high_leases
    ∧ Forall (λ e, entry_accounts e ∧ Debit_Account e ≠ Credit_Account e) l.
Proof.
  unfold je_rows. intros H. do 6 bind_done H. injection H as <-.
  exists a, a1, a3, a0, a2, a4. do 4 (split; [done|]).
  destruct (append_entries_Forall _ _ _ _
              (ap_entry_pair py_str round2 float_sub) Ha0) as [Hap Hlap].
  destruct (append_entries_Forall _ _ _ _
              (tax_entry_pair py_str round2 float_sub) Ha2) as [Htax Hltax].
  destruct (append_entries_Forall _ _ _ _
              (lease_entry_pair py_str round2 float_mul) Ha4) as [Hlease _].
  assert (length a4 = length a3) as Hllease.
  { eapply append_entries_always; [|exact Ha4]. intros row o Ho.
    destruct (lease_entry_accounts _ _ _ _ _ Ho) as (e & -> & _). by eexists. }
  split; [eapply Forall_impl; [exact Hap|by intros ? [? ?]]|].
  split; [eapply Forall_impl; [exact Htax|by intros ? [? ?]]|].
  split; [eapply Forall_impl; [exact Hlease|by intros ? [? ?]]|].
  do 3 (split; [done|]).
  rewrite !Forall_app. repeat split;
    (eapply Forall_impl; [eassumption|by intros ? [? ?]]).
Qed.

Lemma je_rows_shape_witness :
  ∃ high_ap high_tax high_leases la lt ll,
    high_risk 60
      [ {[ "risk_score" := VInt 65; "missing_in_GL" := VBool true;
           "Invoice_ID" := VStr "INV-7"; "Expected_Total" := VInt 1200 ]};
        {[ "risk_score" := VInt 35; "amount_mismatch" := VBool true;
           "Invoice_ID" := VStr "INV-8"; "Expected_Total" := VInt 100;
           "Total_Invoice_Amount" := VInt 140 ]} ] = Done high_ap
    ∧ high_risk 60 [] = Done high_tax
    ∧ high_risk 60
        [ {[ "risk_score" := VInt 95; "Lease_ID" := VStr "L-3";
             "Ending_Lease_Liability" := VInt 50000 ]} ] = Done high_leases
    ∧ [ {| Source := "AP"; Reference := VStr "INV-7";
           Debit_Account := "Project Expense";
           Credit_Account := "Accounts Payable"; Amount := VInt 1200;
           Description := "Record missing AP invoice INV-7" |};
        {| Source := "Lease"; Reference := VStr "L-3";
           Debit_Account := "Lease Liability";
           Credit_Account := "Prior Period Adjustment";
           Amount := VFloat (Fin (50000 # 100));
           Description := "Adjust lease liability for L-3" |} ]
      = la ++ lt ++ ll
    ∧ Forall (λ e, Source e = "AP") la
    ∧ Forall (λ e, Source e = "Tax") lt
    ∧ Forall (λ e, Source e = "Lease") ll
    ∧ (length la <= length high_ap)%nat
    ∧ (length lt <= length high_tax)%nat
    ∧ length ll = length high_leases
    ∧ Forall (λ e, entry_accounts e ∧ Debit_Account e ≠ Credit_Account e)
        [ {| Source := "AP"; Reference := VStr "INV-7";
             Debit_Account := "Project Expense";
             Credit_Account := "Accounts Payable"; Amount := VInt 1200;
             Description := "Record missing AP invoice INV-7" |};
          {| Source := "Lease"; Reference := VStr "L-3";
             Debit_Account := "Lease Liability";
             Credit_Account := "Prior Period Adjustment";
             Amount := VFloat (Fin (50000 # 100));
             Description := "Adjust lease liability for L-3" |} ].
Proof.
  apply (je_rows_shape text_of exact_round2 exact_sub exact_mul 60).
  vm_compute. reflexivity.
Defined.

(** X14: raising the slider's threshold only removes journal entries: when
    the code returns entries at some threshold it also returns at every
    higher threshold, and what it returns there is a sub-list, in the same
    order, of the entries at the lower threshold. *)
Theorem je_rows_threshold py_str round2 float_sub float_mul (t1 t2 : Z)
    (ap_df tax_df lease_df : list (gmap string value)) l1 :
  t1 <= t2 →
  je_rows py_str round2 float_sub float_mul t1 ap_df tax_df lease_df = Done l1 →
  ∃ l2,
    je_rows py_str round2 float_sub float_mul t2 ap_df tax_df lease_df = Done l2
    ∧ sublist l2 l1.
Proof.
  unfold je_rows. intros Ht H. do 6 bind_done H. injection H as <-.
  destruct (high_risk_mono _ _ _ _ Ht Ha) as (h_ap & Hh_ap & Hs_ap).
  destruct (append_entries_sublist _ _ _ _ Hs_ap Ha0) as (l_ap & Hl_ap & Hsub_ap).
  destruct (high_risk_mono _ _ _ _ Ht Ha1) as (h_tax & Hh_tax & Hs_tax).
  destruct (append_entries_sublist _ _ _ _ Hs_tax Ha2) as (l_tax & Hl_tax & Hsub_tax).
  destruct (high_risk_mono _ _ _ _ Ht Ha3) as (h_lease & Hh_lease & Hs_lease).
  destruct (append_entries_sublist _ _ _ _ Hs_lease Ha4)
    as (l_lease & Hl_lease & Hsub_lease).
  rewrite Hh_ap. simpl. rewrite Hl_ap. simpl. rewrite Hh_tax. simpl.
  rewrite Hl_tax. simpl. rewrite Hh_lease. simpl. rewrite Hl_lease. simpl.
  eexists. split; [reflexivity|].
  by repeat apply sublist_app.
Qed.

Lemma je_rows_threshold_witness :
  ∃ l2,
    je_rows text_of exact_round2 exact_sub exact_mul 70
      [ {[ "risk_score" := VInt 65; "missing_in_GL" := VBool true;
           "Invoice_ID" := VStr "INV-7"; "Expected_Total" := VInt 1200 ]} ]
      []
      [ {[ "risk_score" := VInt 95; "Lease_ID" := VStr "L-3";
           "Ending_Lease_Liability" := VInt 50000 ]} ]
    = Done l2
    ∧ sublist l2
        [ {| Source := "AP"; Reference := VStr "INV-7";
             Debit_Account := "Project Expense";
             Credit_Account := "Accounts Payable"; Amount := VInt 1200;
             Description := "Record missing AP invoice INV-7" |};
          {| Source := "Lease"; Reference := VStr "L-3";
             Debit_Account := "Lease Liability";
             Credit_Account := "Prior Period Adjustment";
             Amount := VFloat (Fin (50000 # 100));
             Description := "Adjust lease liability for L-3" |} ].
Proof.
  apply (je_rows_threshold text_of exact_round2 exact_sub exact_mul 60 70).
  - lia.
  - vm_compute. reflexivity.
Defined.

(** ** The journal-entry code on the pipeline's files *)

Lemma numeric_field_item (row : gmap string value) key :
  numeric_field row key →
  ∃ v, row_item row key = Done v
    ∧ ((∃ z, v = VInt z ∧ Z.abs z < float_int_limit) ∨ (∃ f, v = VFloat f)).
Proof.
  unfold row_item. intros [(z & -> & Hz)|(f & ->)]; eexists; (split; [done|]).
  - left. by exists z.
  - right. by exists f.
Qed.

Lemma outcome_bind_beta {A B} (a : A) (k : A → outcome B) :
  (Done a ≫= k) = k a.
Proof. reflexivity. Qed.

Lemma int_to_float_done z :
  Z.abs z < float_int_limit → int_to_float z = Done (Fin (inject_Z z)).
Proof. intros H. unfold int_to_float. apply Z.ltb_lt in H. by rewrite H. Qed.

Section JournalEntryTotal.

Variable py_str : value → string.
Variable round2 : pyfloat → pyfloat.
Variable float_sub : pyfloat → pyfloat → pyfloat.
Variable float_mul : pyfloat → pyfloat → pyfloat.

Lemma py_sub_num a b :
  ((∃ z, a = VInt z ∧ Z.abs z < float_int_limit) ∨ (∃ f, a = VFloat f)) →
  ((∃ z, b = VInt z ∧ Z.abs z < float_int_limit) ∨ (∃ f, b = VFloat f)) →
  ∃ v, py_sub float_sub a b = Done v ∧ is_num v.
Proof.
  intros [(x & -> & Hx)|(x & ->)] [(y & -> & Hy)|(y & ->)]; simpl;
    rewrite ?int_to_float_done by done; by eexists.
Qed.

Lemma py_abs_num v : is_num v → ∃ w, py_abs v = Done w ∧ is_num w.
Proof. destruct v; try done; intros _; by eexists. Qed.

Lemma py_round2_num v : is_num v → ∃ w, py_round2 round2 v = Done w.
Proof. destruct v; try done; intros _; by eexists. Qed.

Lemma py_gt_num v c : is_num v → ∃ b, py_gt v c = Done b.
Proof. destruct v; try done; intros _; by eexists. Qed.

Lemma ap_entry_total (row : gmap string value) :
  ap_columns row → ∃ o, ap_entry py_str round2 float_sub row = Done o.
Proof.
  intros (_ & [ref Href] & He & Ht).
  destruct (numeric_field_item _ _ He) as (e & Hie & Hne).
  destruct (numeric_field_item _ _ Ht) as (t & Hit & Hnt).
  destruct (py_sub_num _ _ Hne Hnt) as (d & Hd & Hnd).
  destruct (py_gt_num d 0 Hnd) as (pos & Hpos).
  destruct (py_abs_num d Hnd) as (m & Hm & Hnm).
  destruct (py_round2_num m Hnm) as (am & Ham).
  assert (is_num e) as Hnume by (destruct Hne as [(? & -> & _)|(? & ->)]; done).
  destruct (py_round2_num e Hnume) as (ae & Hae).
  assert (row_item row "Invoice_ID" = Done ref) as Hiref
    by (unfold row_item; by rewrite Href).
  unfold ap_entry.
  destruct (py_bool (row_get row "missing_in_GL" VNone)).
  - repeat first [rewrite outcome_bind_beta | rewrite Hiref | rewrite Hie
                 | rewrite Hae].
    by eexists.
  - destruct (py_bool (row_get row "amount_mismatch" VNone)); [|by eexists].
    repeat first [rewrite outcome_bind_beta | rewrite Hie | rewrite Hit
                 | rewrite Hd | rewrite Hpos].
    destruct pos;
      repeat first [rewrite outcome_bind_beta | rewrite Hiref | rewrite Hm
                   | rewrite Ham];
      by eexists.
Qed.

Lemma tax_entry_total (row : gmap string value) :
  tax_columns row → ∃ o, tax_entry py_str round2 float_sub row = Done o.
Proof.
  intros (_ & [ref Href] & Hr & Hc).
  destruct (numeric_field_item _ _ Hr) as (r & Hir & Hnr).
  destruct (numeric_field_item _ _ Hc) as (c & Hic & Hnc).
  destruct (py_sub_num _ _ Hnr Hnc) as (d & Hd & Hnd).
  destruct (py_abs_num d Hnd) as (m & Hm & Hnm).
  destruct (py_gt_num m 1 Hnm) as (large & Hlarge).
  destruct (py_round2_num m Hnm) as (am & Ham).
  assert (row_item row "Invoice_ID" = Done ref) as Hiref
    by (unfold row_item; by rewrite Href).
  unfold tax_entry.
  repeat first [rewrite outcome_bind_beta | rewrite Hir | rewrite Hic
               | rewrite Hd | rewrite Hm | rewrite Hlarge].
  destruct large; [|by eexists].
  repeat first [rewrite outcome_bind_beta | rewrite Hiref | rewrite Hm
               | rewrite Ham].
  by eexists.
Qed.

Lemma lease_entry_total (row : gmap string value) :
  lease_columns row → ∃ o, lease_entry py_str round2 float_mul row = Done o.
Proof.
  intros (_ & [ref Href] & Hl).
  destruct (numeric_field_item _ _ Hl) as (v & Hv & Hnv).
  assert (row_item row "Lease_ID" = Done ref) as Hiref
    by (unfold row_item; by rewrite Href).
  unfold lease_entry. rewrite Hiref, Hv. simpl.
  destruct Hnv as [(z & -> & Hz)|(f & ->)]; simpl;
    rewrite ?int_to_float_done by done; simpl; by eexists.
Qed.

End JournalEntryTotal.

Lemma high_risk_total t (df : list (gmap string value)) :
  Forall (λ row, numeric_field row "risk_score") df →
  ∃ h, high_risk t df = Done h.
Proof.
  induction 1 as [|row df Hrow _ [h IH]]; simpl; [by eexists|].
  destruct (numeric_field_item _ _ Hrow) as (v & Hv & Hn).
  unfold risk_at_least. rewrite Hv. simpl.
  destruct Hn as [(z & -> & _)|(f & ->)]; simpl; rewrite IH; simpl; by eexists.
Qed.

Lemma append_entries_total entry (P : gmap string value → Prop)
    (rows : list (gmap string value)) :
  (∀ row, P row → ∃ o, entry row = Done o) →
  Forall P rows → ∃ l, append_entries entry rows = Done l.
Proof.
  intros Hentry. induction 1 as [|row rows Hrow _ [l IH]]; simpl; [by eexists|].
  destruct (Hentry _ Hrow) as [o ->]. simpl. rewrite IH. simpl. by eexists.
Qed.

Lemma Forall_sublist_of {A} (P : A → Prop) (l k : list A) :
  sublist l k → Forall P k → Forall P l.
Proof.
  induction 1 as [|x l k _ IH|x l k _ IH]; intros HF; [done| |].
  - apply Forall_cons in HF as [? ?]. constructor; auto.
  - apply Forall_cons in HF as [? ?]. auto.
Qed.

(** X15: on the three files the pipeline writes, read back by
    [pd.read_csv] (the numeric columns hold integers or floats, the
    identifier columns are present), the journal-entry code never raises,
    whatever the threshold. *)
Theorem je_rows_total py_str round2 float_sub float_mul (risk_threshold : Z)
    (ap_df tax_df lease_df : list (gmap string value)) :
  Forall ap_columns ap_df →
  Forall tax_columns tax_df →
  Forall lease_columns lease_df →
  ∃ l,
    je_rows py_str round2 float_sub float_mul risk_threshold ap_df tax_df lease_df
    = Done l.
Proof.
  intros Hap Htax Hlease. unfold je_rows.
  destruct (high_risk_total risk_threshold ap_df) as [h_ap Hh_ap];
    [eapply Forall_impl; [exact Hap|by intros ? [? ?]]|].
  destruct (high_risk_total risk_threshold tax_df) as [h_tax Hh_tax];
    [eapply Forall_impl; [exact Htax|by intros ? [? ?]]|].
  destruct (high_risk_total risk_threshold lease_df) as [h_lease Hh_lease];
    [eapply Forall_impl; [exact Hlease|by intros ? [? ?]]|].
  destruct (append_entries_total _ _ h_ap (ap_entry_total py_str round2 float_sub))
    as [l_ap Hl_ap];
    [eapply Forall_sublist_of; [by eapply high_risk_sublist|done]|].
  destruct (append_entries_total _ _ h_tax (tax_entry_total py_str round2 float_sub))
    as [l_tax Hl_tax];
    [eapply Forall_sublist_of; [by eapply high_risk_sublist|done]|].
  destruct (append_entries_total _ _ h_lease (lease_entry_total py_str round2 float_mul))
    as [l_lease Hl_lease];
    [eapply Forall_sublist_of; [by eapply high_risk_sublist|done]|].
  rewrite Hh_ap. simpl. rewrite Hl_ap. simpl. rewrite Hh_tax. simpl.
  rewrite Hl_tax. simpl. rewrite Hh_lease. simpl. rewrite Hl_lease. simpl.
  by eexists.
Qed.

Lemma je_rows_total_witness :
  ∃ l,
    je_rows text_of exact_round2 exact_sub exact_mul 60
      [ {[ "risk_score" := VInt 65; "missing_in_GL" := VBool true;
           "Invoice_ID" := VStr "INV-7"; "Expected_Total" := VInt 1200;
           "Total_Invoice_Amount" := VFloat NaN ]} ]
      [ {[ "risk_score" := VInt 100; "Invoice_ID" := VStr "INV-9";
           "Recalc_Tax" := VFloat (Fin (125 # 10)); "Calculated_Tax" := VInt 0 ]} ]
      [ {[ "risk_score" := VInt 45; "Lease_ID" := VStr "L-3";
           "Ending_Lease_Liability" := VInt 50000 ]} ]
    = Done l.
Proof.
  apply (je_rows_total text_of exact_round2 exact_sub exact_mul 60).
  - repeat constructor; try (by eexists); left; eexists; (split; [reflexivity|]);
      by vm_compute.
  - repeat constructor; try (by eexists);
      first [ left; eexists; (split; [reflexivity|]); by vm_compute
            | right; by eexists ].
  - repeat constructor; try (by eexists); left; eexists; (split; [reflexivity|]);
      by vm_compute.
Defined.

Section JournalEntryRules.

Variable py_str : value → string.
Variable round2 : pyfloat → pyfloat.
Variable float_sub : pyfloat → pyfloat → pyfloat.

(** X16: [missing_in_GL] comes first: for a row that holds it true the AP
    entry is made from [Invoice_ID] and [Expected_Total] alone, debit
    Project Expense and credit Accounts Payable; [amount_mismatch] and
    [Total_Invoice_Amount] are not read, so no value in them changes the
    entry or makes the code raise. *)
Theorem ap_entry_missing_in_GL_first (row row' : gmap string value) :
  py_bool (row_get row "missing_in_GL" VNone) = true →
  py_bool (row_get row' "missing_in_GL" VNone) = true →
  row !! "Invoice_ID" = row' !! "Invoice_ID" →
  row !! "Expected_Total" = row' !! "Expected_Total" →
  ap_entry py_str round2 float_sub row = ap_entry py_str round2 float_sub row'
  ∧ ∀ e, ap_entry py_str round2 float_sub row = Done (Some e) →
      Debit_Account e = "Project Expense"
      ∧ Credit_Account e = "Accounts Payable"
      ∧ row !! "Invoice_ID" = Some (Reference e)
      ∧ ∃ expected, row !! "Expected_Total" = Some expected
          ∧ py_round2 round2 expected = Done (Amount e).
Proof.
  intros Hm Hm' Hid Hexp. unfold ap_entry, row_item. rewrite Hm, Hm', Hid, Hexp.
  split; [done|]. intros e H.
  destruct (row' !! "Invoice_ID") as [ref|]; [|discriminate H].
  destruct (row' !! "Expected_Total") as [expected|]; [|discriminate H].
  simpl in H. destruct (py_round2 round2 expected) as [amount|] eqn:Ha;
    [|discriminate H].
  simpl in H. injection H as <-. simpl. repeat split. by exists expected.
Qed.

(** X17: for an amount-mismatch row with integer amounts that differ,
    exchanging [Expected_Total] and [Total_Invoice_Amount] exchanges the
    debit and the credit account and keeps the amount, which is the
    absolute difference; the entry debits Project Expense exactly when
    [Expected_Total] is the larger. *)
Theorem ap_entry_direction (row : gmap string value) (expected total : Z) reference :
  py_bool (row_get row "missing_in_GL" VNone) = false →
  py_bool (row_get row "amount_mismatch" VNone) = true →
  row !! "Invoice_ID" = Some reference →
  row !! "Expected_Total" = Some (VInt expected) →
  row !! "Total_Invoice_Amount" = Some (VInt total) →
  expected ≠ total →
  ∃ e e',
    ap_entry py_str round2 float_sub row = Done (Some e)
    ∧ ap_entry py_str round2 float_sub
        (<["Expected_Total" := VInt total]>
           (<["Total_Invoice_Amount" := VInt expected]> row)) = Done (Some e')
    ∧ Amount e = VInt (Z.abs (expected - total))
    ∧ Amount e' = Amount e
    ∧ Debit_Account e' = Credit_Account e
    ∧ Credit_Account e' = Debit_Account e
    ∧ Reference e = reference ∧ Reference e' = reference
    ∧ (Debit_Account e = "Project Expense" ↔ total < expected).
Proof.
  intros Hm Ha Hid He Ht Hne.
  set (row' := <["Expected_Total" := VInt total]> _).
  assert (py_bool (row_get row' "missing_in_GL" VNone) = false) as Hm'
    by (subst row'; by rewrite !row_get_insert_ne).
  assert (py_bool (row_get row' "amount_mismatch" VNone) = true) as Ha'
    by (subst row'; by rewrite !row_get_insert_ne).
  assert (row' !! "Invoice_ID" = Some reference) as Hid'
    by (subst row'; by rewrite !lookup_insert_ne).
  assert (row' !! "Expected_Total" = Some (VInt total)) as He'
    by (subst row'; by rewrite lookup_insert_eq).
  assert (row' !! "Total_Invoice_Amount" = Some (VInt expected)) as Ht'
    by (subst row'; by rewrite lookup_insert_ne, lookup_insert_eq).
  unfold ap_entry, row_item.
  rewrite Hm, Ha, Hid, He, Ht, Hm', Ha', Hid', He', Ht'. simpl.
  destruct (0 <? expected - total) eqn:E1, (0 <? total - expected) eqn:E2;
    try (apply Z.ltb_lt in E1); try (apply Z.ltb_lt in E2);
    try (apply Z.ltb_ge in E1); try (apply Z.ltb_ge in E2); try lia;
    eexists _, _; (split; [reflexivity|]); (split; [reflexivity|]); simpl;
    repeat split; try done; try (f_equal; lia); try lia.
Qed.

End JournalEntryRules.

Lemma ap_entry_missing_in_GL_first_witness :
  ap_entry text_of exact_round2 exact_sub
    {[ "missing_in_GL" := VBool true; "Invoice_ID" := VStr "INV-7";
       "Expected_Total" := VInt 1200 ]}
  = ap_entry text_of exact_round2 exact_sub
      {[ "missing_in_GL" := VInt 1; "Invoice_ID" := VStr "INV-7";
         "Expected_Total" := VInt 1200; "amount_mismatch" := VBool true;
         "Total_Invoice_Amount" := VStr "n/a" ]}.
Proof.
  apply (ap_entry_missing_in_GL_first text_of exact_round2 exact_sub); reflexivity.
Defined.

Lemma ap_entry_direction_witness :
  ∃ e e',
    ap_entry text_of exact_round2 exact_sub
      {[ "amount_mismatch" := VBool true; "Invoice_ID" := VStr "INV-8";
         "Expected_Total" := VInt 100; "Total_Invoice_Amount" := VInt 140 ]}
    = Done (Some e)
    ∧ ap_entry text_of exact_round2 exact_sub
        (<["Expected_Total" := VInt 140]>
           (<["Total_Invoice_Amount" := VInt 100]>
              {[ "amount_mismatch" := VBool true; "Invoice_ID" := VStr "INV-8";
                 "Expected_Total" := VInt 100;
                 "Total_Invoice_Amount" := VInt 140 ]})) = Done (Some e')
    ∧ Amount e = VInt (Z.abs (100 - 140))
    ∧ Amount e' = Amount e
    ∧ Debit_Account e' = Credit_Account e
    ∧ Credit_Account e' = Debit_Account e
    ∧ Reference e = VStr "INV-8" ∧ Reference e' = VStr "INV-8"
    ∧ (Debit_Account e = "Project Expense" ↔ 140 < 100).
Proof.
  apply (ap_entry_direction text_of exact_round2 exact_sub _ 100 140 (VStr "INV-8"));
    try reflexivity.
  lia.
Defined.

(** ** The threshold filter on the pipeline's output *)

Lemma high_risk_all t (df : list (gmap string value)) :
  Forall (λ row, ∃ s, row !! "risk_score" = Some (VInt s) ∧ t <= s) df →
  high_risk t df = Done df.
Proof.
  induction 1 as [|row df (s & Hs & Hle) _ IH]; simpl; [done|].
  unfold risk_at_least, row_item. rewrite Hs. simpl.
  apply Z.leb_le in Hle. rewrite Hle, IH. done.
Qed.

(** X18: the rows [validate_bank] and [validate_leases] return all pass
    the dashboard's filter [risk_score >= risk_threshold] when the slider is
    at 0 or 5, since no score is below 5; and on any frame, raising the
    threshold never selects more rows. *)
Theorem high_risk_filter (risk_threshold : Z)
    (bank leases bank' leases' : list (gmap string value)) :
  validate_bank bank = Ok bank' →
  validate_leases leases = Ok leases' →
  (risk_threshold <= 5 →
   high_risk risk_threshold bank' = Done bank'
   ∧ high_risk risk_threshold leases' = Done leases')
  ∧ (∀ t (df h : list (gmap string value)),
       risk_threshold <= t → high_risk risk_threshold df = Done h →
       ∃ h', high_risk t df = Done h' ∧ sublist h' h
         ∧ (length h' <= length h)%nat).
Proof.
  intros Hbank Hleases. split.
  - intros Ht. split; apply high_risk_all, Forall_lookup; intros i row Hi.
    + destruct (validate_bank_row _ _ _ _ Hbank Hi) as (row0 & _ & ->).
      eexists. split; [apply with_risk_score|].
      pose proof (Bank_score_bounds (Bank.read
        (<["invoice_marked_paid_but_no_bank_txn" := VBool false]> row0))).
      unfold score_bank_row. lia.
    + destruct (validate_leases_row _ _ _ _ Hleases Hi) as (row0 & _ & ->).
      eexists. split; [apply with_risk_score|].
      pose proof (Lease_score_bounds (Lease.read
        (<["classification_flag" := VBool false]>
           (<["incorrect_opening_entry" := VBool false]> row0)))).
      unfold score_lease_row. lia.
  - intros t df h Ht Hh.
    destruct (high_risk_mono _ _ _ _ Ht Hh) as (h' & Hh' & Hsub).
    exists h'. split; [done|]. split; [done|]. by apply sublist_length.
Qed.

Lemma high_risk_filter_witness :
  (5 <= 5 →
   high_risk 5
     [with_risk score_bank_row
        (<["invoice_marked_paid_but_no_bank_txn" := VBool false]>
           {[ "Vendor" := VStr "Acme" ]})]
   = Done [with_risk score_bank_row
             (<["invoice_marked_paid_but_no_bank_txn" := VBool false]>
                {[ "Vendor" := VStr "Acme" ]})]
   ∧ high_risk 5
       [with_risk score_lease_row
          (<["classification_flag" := VBool false]>
             (<["incorrect_opening_entry" := VBool false]>
                {[ "missing_periods" := VBool true ]}))]
     = Done [with_risk score_lease_row
               (<["classification_flag" := VBool false]>
                  (<["incorrect_opening_entry" := VBool false]>
                     {[ "missing_periods" := VBool true ]}))])
  ∧ (∀ t (df h : list (gmap string value)),
       5 <= t → high_risk 5 df = Done h →
       ∃ h', high_risk t df = Done h' ∧ sublist h' h
         ∧ (length h' <= length h)%nat).
Proof.
  apply (high_risk_filter 5 [ {[ "Vendor" := VStr "Acme" ]} ]
           [ {[ "missing_periods" := VBool true ]} ]);
    reflexivity.
Defined.

(** ** From the AP detector to the AP entry *)

Lemma wrap64_small z : - 2 ^ 63 <= z < 2 ^ 63 → wrap64 z = z.
Proof.
  intros H. unfold wrap64. rewrite Z.mod_small; lia.
Qed.

(** Line 60 on two [int64] amounts whose difference does not overflow. *)
Lemma amount_mismatch_of_int float_sub (total expected : Z) :
  Z.abs (total - expected) < 2 ^ 63 →
  amount_mismatch_of float_sub (NInt total) (NInt expected)
  = (25 <? Z.abs (total - expected)).
Proof.
  intros H. unfold amount_mismatch_of. simpl.
  rewrite (wrap64_small (total - expected)) by lia.
  by rewrite wrap64_small by lia.
Qed.

(** The loop body on an AP row with integer amounts that is not missing
    in the GL. *)
Lemma ap_entry_int_amounts py_str round2 float_sub
    (row : gmap string value) (expected total : Z) reference :
  py_bool (row_get row "missing_in_GL" VNone) = false →
  row !! "amount_mismatch" = Some (VBool (25 <? Z.abs (total - expected))) →
  row !! "Invoice_ID" = Some reference →
  row !! "Expected_Total" = Some (VInt expected) →
  row !! "Total_Invoice_Amount" = Some (VInt total) →
  (Z.abs (total - expected) <= 25
   ∧ ap_entry py_str round2 float_sub row = Done None)
  ∨ (25 < Z.abs (total - expected)
     ∧ ∃ e, ap_entry py_str round2 float_sub row = Done (Some e)
         ∧ Amount e = VInt (Z.abs (total - expected))).
Proof.
  intros Hm Ha Hid He Ht.
  assert (py_bool (row_get row "amount_mismatch" VNone)
          = (25 <? Z.abs (total - expected))) as Hflag
    by (unfold row_get; by rewrite Ha).
  unfold ap_entry, row_item. rewrite Hm, Hflag.
  destruct (25 <? Z.abs (total - expected)) eqn:E.
  - apply Z.ltb_lt in E. right. split; [done|].
    rewrite Hid, He, Ht. simpl.
    destruct (0 <? expected - total); eexists; (split; [reflexivity|]); simpl;
      f_equal; lia.
  - apply Z.ltb_ge in E. by left.
Qed.

(** X19: take an AP frame of one row with [int64] amounts whose difference
    does not overflow, whose [amount_mismatch] flag is the one line 60 of
    [validate_ap] computes from them, and that is not missing in the GL.
    When the row's score is below the threshold, lines 311-370 make no
    entry for it; when it is at or above the threshold, they make an entry
    exactly when the two amounts differ by more than 25, and the entry's
    amount is that difference: no entry of amount 0 is made. *)
Theorem ap_entry_above_tolerance py_str round2 float_sub float_mul
    (risk_threshold : Z) (row : gmap string value)
    (risk_score expected total : Z) reference :
  row !! "risk_score" = Some (VInt risk_score) →
  py_bool (row_get row "missing_in_GL" VNone) = false →
  row !! "amount_mismatch"
  = Some (VBool (amount_mismatch_of float_sub (NInt total) (NInt expected))) →
  row !! "Invoice_ID" = Some reference →
  row !! "Expected_Total" = Some (VInt expected) →
  row !! "Total_Invoice_Amount" = Some (VInt total) →
  Z.abs (total - expected) < 2 ^ 63 →
  (risk_score < risk_threshold →
   je_rows py_str round2 float_sub float_mul risk_threshold [row] [] [] = Done [])
  ∧ (risk_threshold <= risk_score →
     (Z.abs (total - expected) <= 25
      ∧ je_rows py_str round2 float_sub float_mul risk_threshold [row] [] []
        = Done [])
     ∨ (25 < Z.abs (total - expected)
        ∧ ∃ e, je_rows py_str round2 float_sub float_mul risk_threshold [row] [] []
               = Done [e]
            ∧ Amount e = VInt (Z.abs (total - expected)))).
Proof.
  intros Hs Hm Ha Hid He Ht Hrange.
  rewrite amount_mismatch_of_int in Ha by done.
  assert (high_risk risk_threshold [row]
          = Done (if risk_threshold <=? risk_score then [row] else [])) as Hhigh.
  { simpl. unfold risk_at_least, row_item. rewrite Hs. simpl.
    by destruct (risk_threshold <=? risk_score). }
  unfold je_rows. rewrite Hhigh. split.
  - intros Hlt. apply Z.leb_gt in Hlt. rewrite Hlt. reflexivity.
  - intros Hle. apply Z.leb_le in Hle. rewrite Hle. simpl.
    destruct (ap_entry_int_amounts py_str round2 float_sub row expected total
                reference Hm Ha Hid He Ht) as [[Hd ->]|[Hd (e & -> & Hamount)]].
    + left. by split.
    + right. split; [done|]. exists e. by split.
Qed.

Lemma ap_entry_above_tolerance_witness :
  (35 < 30 →
   je_rows text_of exact_round2 exact_sub exact_mul 30
     [ {[ "risk_score" := VInt 35;
          "amount_mismatch" := VBool (amount_mismatch_of exact_sub (NInt 1000) (NInt 1100));
          "Invoice_ID" := VStr "INV-2"; "Expected_Total" := VInt 1100;
          "Total_Invoice_Amount" := VInt 1000 ]} ] [] [] = Done [])
  ∧ (30 <= 35 →
     (Z.abs (1000 - 1100) <= 25
      ∧ je_rows text_of exact_round2 exact_sub exact_mul 30
          [ {[ "risk_score" := VInt 35;
               "amount_mismatch" := VBool (amount_mismatch_of exact_sub (NInt 1000) (NInt 1100));
               "Invoice_ID" := VStr "INV-2"; "Expected_Total" := VInt 1100;
               "Total_Invoice_Amount" := VInt 1000 ]} ] [] [] = Done [])
     ∨ (25 < Z.abs (1000 - 1100)
        ∧ ∃ e,
            je_rows text_of exact_round2 exact_sub exact_mul 30
              [ {[ "risk_score" := VInt 35;
                   "amount_mismatch" := VBool (amount_mismatch_of exact_sub (NInt 1000) (NInt 1100));
                   "Invoice_ID" := VStr "INV-2"; "Expected_Total" := VInt 1100;
                   "Total_Invoice_Amount" := VInt 1000 ]} ] [] [] = Done [e]
            ∧ Amount e = VInt (Z.abs (1000 - 1100)))).
Proof.
  apply (ap_entry_above_tolerance text_of exact_round2 exact_sub exact_mul 30 _
           35 1100 1000 (VStr "INV-2")); try reflexivity.
Defined.
